(** * Device buffers and textures of the optical-flow filter

    A shallow embedding of [flowfilter/gpu/image.cu]: the pitched device
    buffer [GPUImage], its host/device transfers, the reference-counted
    ownership of the device allocation, and the texture view [GPUTexture].

    The CUDA runtime is an external collaborator.  Its deterministic entry
    points ([cudaMemcpy2D], [cudaFree], [cudaCreateChannelDesc]) are given
    an executable model; the entry points whose result is the platform's
    choice ([cudaMallocPitch], [cudaCreateTextureObject]) are the methods of
    the class [CudaRuntime].  Every call that reaches the runtime, and every
    diagnostic written to [std::cerr], is recorded in a trace. *)

From Stdlib Require Import ZArith List String Bool Lia DecimalString.
From stdpp Require Import base list.

Open Scope Z_scope.

(** ** Machine integers

    The shape fields are C++ [int]s; sizes handed to the runtime are
    [size_t].  Both are carried as [Z], with the conversions and the
    wrap-around of the 32-bit product written out. *)

Definition INT_MIN : Z := -2147483648.
Definition INT_MAX : Z := 2147483647.

Definition is_int (z : Z) : Prop := INT_MIN <= z <= INT_MAX.

Definition wrap_int (z : Z) : Z := (z + 2147483648) mod 4294967296 - 2147483648.

Definition int_mul (a b : Z) : Z := wrap_int (a * b).

(** [int] (or any integer) converted to a 64-bit [size_t]. *)
Definition to_size_t (z : Z) : Z := z mod 18446744073709551616.

(** ** Host image descriptor *)

(** Modelled from the spec: the declaration of [flowfilter::image_t]
    (header [flowfilter/image.h]) is {height:int, width:int, depth:int,
    pitch:int, itemSize:int, data:pointer}; [wrapCVMat] of the demo
    programs fills exactly these fields. *)
Record image_t := mk_image_t {
  height : Z;
  width : Z;
  depth : Z;
  pitch : Z;
  itemSize : Z;
  data : Z
}.

(** ** The CUDA runtime interface *)

Inductive cudaError_t :=
| cudaSuccess
| cudaErrorInvalidValue
| cudaErrorMemoryAllocation
| cudaErrorInvalidPitchValue
| cudaErrorUnknown.

Definition cudaError_eqb (a b : cudaError_t) : bool :=
  match a, b with
  | cudaSuccess, cudaSuccess
  | cudaErrorInvalidValue, cudaErrorInvalidValue
  | cudaErrorMemoryAllocation, cudaErrorMemoryAllocation
  | cudaErrorInvalidPitchValue, cudaErrorInvalidPitchValue
  | cudaErrorUnknown, cudaErrorUnknown => true
  | _, _ => false
  end.

Definition cudaGetErrorString (e : cudaError_t) : string :=
  match e with
  | cudaSuccess => "no error"
  | cudaErrorInvalidValue => "invalid argument"
  | cudaErrorMemoryAllocation => "out of memory"
  | cudaErrorInvalidPitchValue => "invalid pitch argument"
  | cudaErrorUnknown => "unknown error"
  end.

Inductive cudaMemcpyKind := cudaMemcpyHostToDevice | cudaMemcpyDeviceToHost.

Inductive cudaChannelFormatKind :=
| cudaChannelFormatKindSigned
| cudaChannelFormatKindUnsigned
| cudaChannelFormatKindFloat
| cudaChannelFormatKindNone.

Inductive cudaTextureAddressMode :=
| cudaAddressModeWrap
| cudaAddressModeClamp
| cudaAddressModeMirror
| cudaAddressModeBorder.

Inductive cudaTextureFilterMode := cudaFilterModePoint | cudaFilterModeLinear.

Inductive cudaTextureReadMode := cudaReadModeElementType | cudaReadModeNormalizedFloat.

Inductive cudaResourceType :=
| cudaResourceTypeArray
| cudaResourceTypeMipmappedArray
| cudaResourceTypeLinear
| cudaResourceTypePitch2D.

(** [cudaChannelFormatDesc]: the bit widths of the four channels and the
    format kind. *)
Record cudaChannelFormatDesc := mk_channel_desc {
  chan_x : Z;
  chan_y : Z;
  chan_z : Z;
  chan_w : Z;
  chan_f : cudaChannelFormatKind
}.

Definition cudaCreateChannelDesc (x y z w : Z) (f : cudaChannelFormatKind)
  : cudaChannelFormatDesc :=
  {| chan_x := x; chan_y := y; chan_z := z; chan_w := w; chan_f := f |}.

(** Bit width of channel [i] (0-based) of a descriptor; channels past the
    fourth do not exist and have width 0. *)
Definition channel_width (d : cudaChannelFormatDesc) (i : Z) : Z :=
  if i =? 0 then chan_x d
  else if i =? 1 then chan_y d
  else if i =? 2 then chan_z d
  else if i =? 3 then chan_w d
  else 0.

(** The fields of [cudaTextureDesc] that [configure] writes after the
    [memset]; every other field stays zero. *)
Record cudaTextureDesc := mk_texture_desc {
  addressMode0 : cudaTextureAddressMode;
  addressMode1 : cudaTextureAddressMode;
  filterMode : cudaTextureFilterMode;
  readMode : cudaTextureReadMode;
  normalizedCoords : bool
}.

(** [cudaResourceDesc] restricted to its [pitch2D] member. *)
Record cudaResourceDesc := mk_resource_desc {
  resType : cudaResourceType;
  pitch2D_desc : cudaChannelFormatDesc;
  pitch2D_devPtr : Z;
  pitch2D_pitchInBytes : Z;
  pitch2D_width : Z;
  pitch2D_height : Z
}.

(** What the runtime leaves behind after [cudaMallocPitch] and
    [cudaCreateTextureObject]: on success the out-parameters are written,
    on failure they are left as they were. *)
Inductive MallocOutcome :=
| MallocOk (devPtr pitch : Z)
| MallocFail (err : cudaError_t).

Inductive TextureOutcome :=
| TextureOk (texObject : Z)
| TextureFail (err : cudaError_t).

(** The platform's choices.  [cudaMallocPitch_rt live width height] sees the
    device pointers that are currently allocated; its contract is the one
    the CUDA documentation gives: the returned pitch is at least the
    requested row width. *)
Class CudaRuntime := {
  cudaMallocPitch_rt : list Z -> Z -> Z -> MallocOutcome;
  cudaCreateTextureObject_rt : cudaResourceDesc -> cudaTextureDesc -> TextureOutcome;
  cudaMallocPitch_pitch :
    forall live w h p q, cudaMallocPitch_rt live w h = MallocOk p q -> w <= q
}.

(** ** The world: two memories, the allocator, control blocks, the trace *)

Definition Mem := Z -> Byte.byte.

Inductive Event :=
| EvMallocPitch (width height : Z)
| EvFree (devPtr : Z)
| EvMemcpy2D (dst dpitch src spitch width height : Z) (kind : cudaMemcpyKind)
| EvCreateTextureObject (res : cudaResourceDesc) (tex : cudaTextureDesc)
| EvDestroyTextureObject (texObject : Z)
| EvCerr (msg : string).

(** [blocks] are the control blocks of [std::shared_ptr]: the managed
    pointer and the use count; a block is never reused.  [trace] has the
    most recent event first. *)
Record World := mk_world {
  host_mem : Mem;
  dev_mem : Mem;
  dev_live : list Z;
  blocks : list (Z * nat);
  trace : list Event
}.

Definition set_host_mem (m : Mem) (w : World) : World :=
  {| host_mem := m; dev_mem := dev_mem w; dev_live := dev_live w;
     blocks := blocks w; trace := trace w |}.

Definition set_dev_mem (m : Mem) (w : World) : World :=
  {| host_mem := host_mem w; dev_mem := m; dev_live := dev_live w;
     blocks := blocks w; trace := trace w |}.

Definition set_dev_live (l : list Z) (w : World) : World :=
  {| host_mem := host_mem w; dev_mem := dev_mem w; dev_live := l;
     blocks := blocks w; trace := trace w |}.

Definition set_blocks (b : list (Z * nat)) (w : World) : World :=
  {| host_mem := host_mem w; dev_mem := dev_mem w; dev_live := dev_live w;
     blocks := b; trace := trace w |}.

Definition emit (e : Event) (w : World) : World :=
  {| host_mem := host_mem w; dev_mem := dev_mem w; dev_live := dev_live w;
     blocks := blocks w; trace := e :: trace w |}.

(** ** State monad over the world *)

Definition M (A : Type) : Type := World -> A * World.

Definition ret {A} (a : A) : M A := fun w => (a, w).

Definition bind {A B} (c : M A) (k : A -> M B) : M B :=
  fun w => let (a, w') := c w in k a w'.

Notation "x <- c ;; k" := (bind c (fun x => k))
  (at level 100, c at next level, right associativity).
Notation "c ;; k" := (bind c (fun _ => k))
  (at level 100, right associativity).

Definition modify (f : World -> World) : M unit := fun w => (tt, f w).

Definition cerr (msg : string) : M unit := modify (emit (EvCerr msg)).

(** Decimal text of an [int], as [operator<<] prints it. *)
Definition show_int (z : Z) : string := NilZero.string_of_int (Z.to_int z).

(** Modelled from the spec: [checkError] (header [flowfilter/gpu/error.h])
    reports a failed runtime call as diagnostic output and returns; no
    exception or error result is propagated. *)
Definition checkError (e : cudaError_t) : M unit :=
  if cudaError_eqb e cudaSuccess then ret tt
  else cerr ("ERROR: " ++ cudaGetErrorString e).

(** ** Runtime calls with an executable model *)

(** One row of a 2D copy: [width] bytes from [from] at [src] to [to] at
    [dst]. *)
Definition copy_row (from : Mem) (src dst width : Z) (to : Mem) : Mem :=
  fun a => if (dst <=? a) && (a <? dst + width)
           then from (src + (a - dst)) else to a.

(** Rows [0 .. rows-1] in order; row [r] starts at [src + r*spitch] and
    lands at [dst + r*dpitch]. *)
Fixpoint copy_rows (rows : nat) (from : Mem) (src spitch dst dpitch width : Z)
    (to : Mem) : Mem :=
  match rows with
  | O => to
  | S r =>
      copy_row from (src + Z.of_nat r * spitch) (dst + Z.of_nat r * dpitch) width
        (copy_rows r from src spitch dst dpitch width to)
  end.

(** [cudaMemcpy2D]: the call is recorded; a null pointer or a pitch smaller
    than the row width is rejected and nothing is copied. *)
Definition cudaMemcpy2D (dst dpitch src spitch width height : Z)
    (kind : cudaMemcpyKind) : M cudaError_t :=
  fun w0 =>
    let w := emit (EvMemcpy2D dst dpitch src spitch width height kind) w0 in
    if (dst =? 0) || (src =? 0) then (cudaErrorInvalidValue, w)
    else if (dpitch <? width) || (spitch <? width) then (cudaErrorInvalidPitchValue, w)
    else
      match kind with
      | cudaMemcpyHostToDevice =>
          (cudaSuccess,
           set_dev_mem (copy_rows (Z.to_nat height) (host_mem w)
                          src spitch dst dpitch width (dev_mem w)) w)
      | cudaMemcpyDeviceToHost =>
          (cudaSuccess,
           set_host_mem (copy_rows (Z.to_nat height) (dev_mem w)
                           src spitch dst dpitch width (host_mem w)) w)
      end.

Definition remove_ptr (p : Z) (l : list Z) : list Z :=
  List.filter (fun q => negb (q =? p)) l.

Definition is_live (p : Z) (l : list Z) : bool :=
  existsb (fun q => q =? p) l.

(** [cudaFree]: freeing the null pointer is a no-op; the contents of device
    memory are not touched. *)
Definition cudaFree (p : Z) : M cudaError_t :=
  fun w0 =>
    let w := emit (EvFree p) w0 in
    if p =? 0 then (cudaSuccess, w)
    else if is_live p (dev_live w) then (cudaSuccess, set_dev_live (remove_ptr p (dev_live w)) w)
    else (cudaErrorInvalidValue, w).

Definition cudaDestroyTextureObject (t : Z) : M cudaError_t :=
  fun w => (cudaSuccess, emit (EvDestroyTextureObject t) w).

Section Runtime.

Context {rt : CudaRuntime}.

Definition cudaMallocPitch (width_bytes height_rows : Z) : M MallocOutcome :=
  fun w0 =>
    let w := emit (EvMallocPitch width_bytes height_rows) w0 in
    match cudaMallocPitch_rt (dev_live w) width_bytes height_rows with
    | MallocOk p q =>
        (MallocOk p q, if p =? 0 then w else set_dev_live (p :: dev_live w) w)
    | MallocFail e => (MallocFail e, w)
    end.

Definition cudaCreateTextureObject (res : cudaResourceDesc) (tex : cudaTextureDesc)
  : M TextureOutcome :=
  fun w => (cudaCreateTextureObject_rt res tex, emit (EvCreateTextureObject res tex) w).

End Runtime.

(** ** Shared ownership of the device allocation *)

(** [std::shared_ptr<void>]: the stored pointer and the control block that
    counts the owners.  A default-constructed pointer has no block. *)
Record shared_ptr := mk_shared_ptr {
  get : Z;
  ctrl : option nat
}.

Definition shared_ptr_empty : shared_ptr := {| get := 0; ctrl := None |}.

(** Modelled from the spec: [gpu_deleter] (header
    [flowfilter/gpu/gpu_deleter.h]) releases the allocation through the
    compute platform's deallocation call, never through a generic free. *)
Definition gpu_deleter (p : Z) : M unit :=
  _ <- cudaFree p ;; ret tt.

(** [std::shared_ptr<void> {p, gpu_deleter<void>()}]: a fresh control block
    with one owner, also when [p] is null. *)
Definition shared_ptr_make (p : Z) : M shared_ptr :=
  fun w => ({| get := p; ctrl := Some (length (blocks w)) |},
            set_blocks (blocks w ++ [(p, 1%nat)]) w).

(** Copy construction: one more owner of the same block. *)
Definition shared_ptr_copy (s : shared_ptr) : M shared_ptr :=
  match ctrl s with
  | None => ret s
  | Some i =>
      fun w =>
        match blocks w !! i with
        | Some (p, n) => (s, set_blocks (<[i := (p, S n)]> (blocks w)) w)
        | None => (s, w)
        end
  end.

(** Destruction of one owner: the deleter runs when the count reaches 0. *)
Definition shared_ptr_release (s : shared_ptr) : M unit :=
  match ctrl s with
  | None => ret tt
  | Some i =>
      fun w =>
        match blocks w !! i with
        | Some (p, S n) =>
            let w' := set_blocks (<[i := (p, n)]> (blocks w)) w in
            match n with
            | O => gpu_deleter p w'
            | S _ => (tt, w')
            end
        | _ => (tt, w)
        end
  end.

Definition use_count (s : shared_ptr) (w : World) : nat :=
  match ctrl s with
  | None => 0%nat
  | Some i => match blocks w !! i with Some (_, n) => n | None => 0%nat end
  end.

(** ** GPUImage *)

Record GPUImage := mk_GPUImage {
  __height : Z;
  __width : Z;
  __depth : Z;
  __pitch : Z;
  __itemSize : Z;
  __ptr_dev : shared_ptr
}.

Definition GPUImage_height (this : GPUImage) : Z := __height this.
Definition GPUImage_width (this : GPUImage) : Z := __width this.
Definition GPUImage_depth (this : GPUImage) : Z := __depth this.
(** [pitch()] returns the [size_t] field as an [int]. *)
Definition GPUImage_pitch (this : GPUImage) : Z := wrap_int (__pitch this).
Definition GPUImage_itemSize (this : GPUImage) : Z := __itemSize this.
Definition GPUImage_data (this : GPUImage) : Z := get (__ptr_dev this).

(** [!__ptr_dev] *)
Definition unallocated (this : GPUImage) : bool := get (__ptr_dev this) =? 0.

(** [__width*__depth*__itemSize], an [int] product passed as [size_t]. *)
Definition row_bytes (this : GPUImage) : Z :=
  to_size_t (int_mul (int_mul (__width this) (__depth this)) (__itemSize this)).

Definition set_shape (h w d s : Z) (this : GPUImage) : GPUImage :=
  {| __height := h; __width := w; __depth := d; __pitch := __pitch this;
     __itemSize := s; __ptr_dev := __ptr_dev this |}.

Definition set_allocation (q : Z) (p : shared_ptr) (this : GPUImage) : GPUImage :=
  {| __height := __height this; __width := __width this; __depth := __depth this;
     __pitch := q; __itemSize := __itemSize this; __ptr_dev := p |}.

Definition compareShape (this : GPUImage) (img : image_t) : bool :=
  (__height this =? height img) &&
  (__width this =? width img) &&
  (__depth this =? depth img) &&
  (__itemSize this =? itemSize img).

(** Implicit copy constructor, copy assignment and destructor. *)
Definition GPUImage_copy (other : GPUImage) : M GPUImage :=
  p <- shared_ptr_copy (__ptr_dev other) ;;
  ret (set_allocation (__pitch other) p other).

Definition GPUImage_assign (this other : GPUImage) : M GPUImage :=
  p <- shared_ptr_copy (__ptr_dev other) ;;
  shared_ptr_release (__ptr_dev this) ;;
  ret (set_allocation (__pitch other) p other).

Definition GPUImage_dtor (this : GPUImage) : M unit :=
  shared_ptr_release (__ptr_dev this).

Section Buffer.

Context {rt : CudaRuntime}.

Definition allocate (this : GPUImage) : M GPUImage :=
  r <- cudaMallocPitch (row_bytes this) (to_size_t (__height this)) ;;
  let '(err, buffer_dev, pitch') :=
    match r with
    | MallocOk p q => (cudaSuccess, p, q)
    | MallocFail e => (e, 0, __pitch this)
    end in
  tmp <- shared_ptr_make buffer_dev ;;
  shared_ptr_release (__ptr_dev this) ;;
  (if cudaError_eqb err cudaSuccess then ret tt
   else cerr ("ERROR: GPUImage device memory allocation: " ++ cudaGetErrorString err)) ;;
  ret (set_allocation pitch' tmp this).

(** [GPUImage::GPUImage()] *)
Definition GPUImage_ctor : M GPUImage :=
  tmp <- shared_ptr_make 0 ;;
  shared_ptr_release shared_ptr_empty ;;
  ret {| __height := 0; __width := 0; __depth := 0; __pitch := 0;
         __itemSize := 0; __ptr_dev := tmp |}.

(** [GPUImage::GPUImage(height, width, depth, itemSize)].  The constructor
    does not write [__pitch]: until [cudaMallocPitch] does, the field holds
    whatever the storage held, [raw_pitch]. *)
Definition GPUImage_ctor_shape (raw_pitch : Z) (h w d s : Z) : M GPUImage :=
  allocate {| __height := h; __width := w; __depth := d; __pitch := raw_pitch;
              __itemSize := s; __ptr_dev := shared_ptr_empty |}.

Definition upload (this : GPUImage) (img : image_t) : M GPUImage :=
  this <- (if unallocated this
           then allocate (set_shape (height img) (width img) (depth img) (itemSize img) this)
           else ret this) ;;
  if compareShape this img then
    e <- cudaMemcpy2D (get (__ptr_dev this)) (__pitch this)
           (data img) (to_size_t (pitch img))
           (row_bytes this) (to_size_t (__height this))
           cudaMemcpyHostToDevice ;;
    checkError e ;;
    ret this
  else
    cerr "ERROR: GPUImage::upload(): shapes do not match" ;;
    ret this.

Definition download (this : GPUImage) (img : image_t) : M unit :=
  if unallocated this then
    cerr "ERROR: GPUImage::download(): unallocated image"
  else if compareShape this img then
    e <- cudaMemcpy2D (data img) (to_size_t (pitch img))
           (get (__ptr_dev this)) (__pitch this)
           (row_bytes this) (to_size_t (__height this))
           cudaMemcpyDeviceToHost ;;
    checkError e
  else
    cerr "ERROR: GPUImage::download(): shapes do not match".

(** *** Sequences of operations on one buffer *)

Inductive Construction :=
| ConstructEmpty
| ConstructShape (raw_pitch h w d s : Z).

Inductive BufferOp :=
| OpUpload (img : image_t)
| OpDownload (img : image_t).

Definition construct (c : Construction) : M GPUImage :=
  match c with
  | ConstructEmpty => GPUImage_ctor
  | ConstructShape raw h w d s => GPUImage_ctor_shape raw h w d s
  end.

Definition apply_op (this : GPUImage) (o : BufferOp) : M GPUImage :=
  match o with
  | OpUpload img => upload this img
  | OpDownload img => download this img ;; ret this
  end.

Fixpoint run_ops (this : GPUImage) (ops : list BufferOp) : M GPUImage :=
  match ops with
  | [] => ret this
  | o :: rest => this' <- apply_op this o ;; run_ops this' rest
  end.

End Buffer.

(** ** GPUTexture *)

Record GPUTexture := mk_GPUTexture {
  __validTexture : bool;
  __texture : Z;
  __image : GPUImage
}.

(** The channel descriptor [configure] builds for [channels] channels of
    [itemSize] bytes. *)
Definition channel_desc (channels itemSize : Z) (format : cudaChannelFormatKind)
  : cudaChannelFormatDesc :=
  let bitWidth := int_mul 8 itemSize in
  let w1 := bitWidth in
  let w2 := if 2 <=? channels then bitWidth else 0 in
  let w3 := if 3 <=? channels then bitWidth else 0 in
  let w4 := if channels =? 4 then bitWidth else 0 in
  cudaCreateChannelDesc w1 w2 w3 w4 format.

Definition texture_desc (addressMode : cudaTextureAddressMode)
    (filterMode : cudaTextureFilterMode) (readMode : cudaTextureReadMode)
  : cudaTextureDesc :=
  {| addressMode0 := addressMode; addressMode1 := addressMode;
     filterMode := filterMode; readMode := readMode;
     normalizedCoords := false |}.

Definition resource_desc (img : GPUImage) (format : cudaChannelFormatKind)
  : cudaResourceDesc :=
  {| resType := cudaResourceTypePitch2D;
     pitch2D_desc := channel_desc (GPUImage_depth img) (GPUImage_itemSize img) format;
     pitch2D_devPtr := GPUImage_data img;
     pitch2D_pitchInBytes := to_size_t (GPUImage_pitch img);
     pitch2D_width := to_size_t (GPUImage_width img);
     pitch2D_height := to_size_t (GPUImage_height img) |}.

Section Texture.

Context {rt : CudaRuntime}.

Definition configure (this : GPUTexture) (format : cudaChannelFormatKind)
    (addressMode : cudaTextureAddressMode) (filterMode : cudaTextureFilterMode)
    (readMode : cudaTextureReadMode) : M GPUTexture :=
  let channels := GPUImage_depth (__image this) in
  if 4 <? channels then
    cerr ("ERROR: GPUTexture::configure(): image channels greater than 4: "
          ++ show_int channels) ;;
    ret this
  else
    r <- cudaCreateTextureObject (resource_desc (__image this) format)
           (texture_desc addressMode filterMode readMode) ;;
    let '(err, texture') :=
      match r with
      | TextureOk t => (cudaSuccess, t)
      | TextureFail e => (e, __texture this)
      end in
    if cudaError_eqb err cudaSuccess then
      ret {| __validTexture := true; __texture := texture'; __image := __image this |}
    else
      cerr ("ERROR: GPUTexture::configure(): texture creation: "
            ++ cudaGetErrorString err) ;;
      ret {| __validTexture := false; __texture := texture'; __image := __image this |}.

(** [GPUTexture::GPUTexture()].  [__texture] is not written and keeps the
    value of the storage. *)
Definition GPUTexture_ctor_default (raw_texture : Z) : M GPUTexture :=
  held <- GPUImage_ctor ;;
  ret {| __validTexture := false; __texture := raw_texture; __image := held |}.

(** [GPUTexture::GPUTexture(img, format, addressMode, filterMode, readMode)].
    The constructor has no member initialisers: [__image] is
    default-constructed and then assigned, [__validTexture] and [__texture]
    start with the values of the storage, [raw_valid] and [raw_texture]. *)
Definition GPUTexture_ctor (raw_valid : bool) (raw_texture : Z) (img : GPUImage)
    (format : cudaChannelFormatKind) (addressMode : cudaTextureAddressMode)
    (filterMode : cudaTextureFilterMode) (readMode : cudaTextureReadMode)
  : M GPUTexture :=
  held0 <- GPUImage_ctor ;;
  held <- GPUImage_assign held0 img ;;
  configure {| __validTexture := raw_valid; __texture := raw_texture; __image := held |}
    format addressMode filterMode readMode.

(** [GPUTexture::GPUTexture(img, format)] delegates, passing [img] by value. *)
Definition GPUTexture_ctor_format (raw_valid : bool) (raw_texture : Z) (img : GPUImage)
    (format : cudaChannelFormatKind) : M GPUTexture :=
  arg <- GPUImage_copy img ;;
  t <- GPUTexture_ctor raw_valid raw_texture arg format
         cudaAddressModeClamp cudaFilterModePoint cudaReadModeElementType ;;
  GPUImage_dtor arg ;;
  ret t.

(** The caller's side of [GPUTexture t(a, format, ...)]: the by-value
    parameter is a copy of [a] that dies when the constructor returns. *)
Definition GPUTexture_over (raw_valid : bool) (raw_texture : Z) (a : GPUImage)
    (format : cudaChannelFormatKind) (addressMode : cudaTextureAddressMode)
    (filterMode : cudaTextureFilterMode) (readMode : cudaTextureReadMode)
  : M GPUTexture :=
  arg <- GPUImage_copy a ;;
  t <- GPUTexture_ctor raw_valid raw_texture arg format addressMode filterMode readMode ;;
  GPUImage_dtor arg ;;
  ret t.

Definition getTextureObject (this : GPUTexture) : Z := __texture this.

Definition getImage (this : GPUTexture) : M GPUImage := GPUImage_copy (__image this).

Definition GPUTexture_dtor (this : GPUTexture) : M unit :=
  (if __validTexture this then
     e <- cudaDestroyTextureObject (__texture this) ;; checkError e
   else ret tt) ;;
  GPUImage_dtor (__image this).

End Texture.

(** ** A concrete runtime

    [aligned_runtime] is a device with 1 GiB of memory: it rounds the row
    width up to a multiple of 512 bytes, hands out a device pointer above
    every live one, and refuses empty requests and requests beyond its
    memory.  It creates textures of 8, 16 or 32 bits per channel. *)

Definition round_up_512 (n : Z) : Z := n + (512 - n mod 512) mod 512.

Definition fresh_ptr (live : list Z) : Z :=
  fold_right Z.max 0 live + 4294967296.

Definition aligned_malloc (live : list Z) (w h : Z) : MallocOutcome :=
  if (0 <? w) && (0 <? h) && (round_up_512 w * h <=? 1073741824)
  then MallocOk (fresh_ptr live) (round_up_512 w)
  else MallocFail cudaErrorMemoryAllocation.

Definition aligned_texture (res : cudaResourceDesc) (tex : cudaTextureDesc)
  : TextureOutcome :=
  let bits := chan_x (pitch2D_desc res) in
  if (pitch2D_devPtr res =? 0) then TextureFail cudaErrorInvalidValue
  else if (bits =? 8) || (bits =? 16) || (bits =? 32)
  then TextureOk (pitch2D_devPtr res + 1)
  else TextureFail cudaErrorInvalidValue.

Definition aligned_runtime : CudaRuntime.
Proof.
  refine {| cudaMallocPitch_rt := aligned_malloc;
            cudaCreateTextureObject_rt := aligned_texture |}.
  intros live w h p q. unfold aligned_malloc.
  destruct (_ && _); [|discriminate].
  intros [= _ <-]. unfold round_up_512.
  pose proof (Z.mod_pos_bound (512 - w mod 512) 512 ltac:(lia)). lia.
Defined.

(** A host memory holding the ramp 0, 1, 2, ... (mod 256), and a world with
    nothing allocated. *)
Definition ramp_mem : Mem :=
  fun a => match Byte.of_N (Z.to_N (a mod 256)) with Some b => b | None => Byte.x00 end.

Definition zero_mem : Mem := fun _ => Byte.x00.

Definition empty_world : World :=
  {| host_mem := ramp_mem; dev_mem := zero_mem; dev_live := [];
     blocks := []; trace := [] |}.

(** The events recorded between world [w] and a later world [w'], most
    recent first. *)
Definition new_events (w w' : World) : list Event :=
  take (length (trace w') - length (trace w)) (trace w').

Definition is_memcpy (e : Event) : bool :=
  match e with EvMemcpy2D _ _ _ _ _ _ _ => true | _ => false end.

Definition is_create_texture (e : Event) : bool :=
  match e with EvCreateTextureObject _ _ => true | _ => false end.

Definition is_free_of (p : Z) (e : Event) : bool :=
  match e with EvFree q => q =? p | _ => false end.

(** *** Sample data

    A 2x2 image of four one-byte channels, as the runtime above allocates
    it, and host images over the ramp: one tight, one padded, one with
    three channels, one whose pitch is shorter than its row. *)

Definition sample_alloc : GPUImage * World :=
  @GPUImage_ctor_shape aligned_runtime 0 2 2 4 1 empty_world.

Definition sample_buffer : GPUImage := fst sample_alloc.
Definition sample_world : World := snd sample_alloc.

Definition sample_empty : GPUImage * World := GPUImage_ctor empty_world.

Definition tight_image : image_t :=
  {| height := 2; width := 2; depth := 4; pitch := 8; itemSize := 1; data := 4096 |}.

Definition padded_image : image_t :=
  {| height := 2; width := 2; depth := 4; pitch := 16; itemSize := 1; data := 8192 |}.

Definition rgb_image : image_t :=
  {| height := 2; width := 2; depth := 3; pitch := 6; itemSize := 1; data := 4096 |}.

Definition short_pitch_image : image_t :=
  {| height := 2; width := 2; depth := 4; pitch := 1; itemSize := 1; data := 4096 |}.

(** An image of 16 GiB, more than the device has. *)
Definition oversized_image : image_t :=
  {| height := 32768; width := 32768; depth := 4; pitch := 524288; itemSize := 4;
     data := 4096 |}.

(** Five channels; and a single pixel of 2^28 bytes. *)
Definition five_channel_alloc : GPUImage * World :=
  @GPUImage_ctor_shape aligned_runtime 0 2 2 5 1 empty_world.

Definition huge_item_alloc : GPUImage * World :=
  @GPUImage_ctor_shape aligned_runtime 0 1 1 1 268435456 empty_world.

(** ** Vocabulary of the properties *)

(** A host image as the interface requires it: positive shape, a pitch
    that covers the row, a buffer behind the pointer. *)
Definition valid_image (img : image_t) : Prop :=
  0 < height img <= INT_MAX /\
  0 < width img /\ 0 < depth img /\ 0 < itemSize img /\
  width img * depth img * itemSize img <= pitch img <= INT_MAX /\
  data img <> 0.

Definition same_shape (a b : image_t) : Prop :=
  height a = height b /\ width a = width b /\
  depth a = depth b /\ itemSize a = itemSize b.

(** The byte of row [r], column [c] of a host image. *)
Definition pixel_addr (img : image_t) (r c : Z) : Z := data img + r * pitch img + c.

Definition in_image (img : image_t) (a : Z) : Prop :=
  exists r c, 0 <= r < height img /\
              0 <= c < width img * depth img * itemSize img /\
              a = pixel_addr img r c.

(** [w'] differs from [w] in the allocator and the control blocks only, and
    its trace is that of [w] with [fr] in front. *)
Definition mem_frame (w w' : World) (fr : list Event) : Prop :=
  host_mem w' = host_mem w /\ dev_mem w' = dev_mem w /\ trace w' = fr ++ trace w.

Definition only_frees (fr : list Event) : Prop :=
  fr = [] \/ exists p, fr = [EvFree p].

(** The pitch recorded by an allocated buffer covers the row the code
    asked for. *)
Definition pitch_covers_row (this : GPUImage) : Prop :=
  unallocated this = false -> row_bytes this <= __pitch this.

Definition shape_zero (b : GPUImage) : Prop :=
  __height b = 0 /\ __width b = 0 /\ __depth b = 0 /\ __itemSize b = 0.

Definition shape_positive (b : GPUImage) : Prop :=
  0 < __height b /\ 0 < __width b /\ 0 < __depth b /\ 0 < __itemSize b.

Definition positive_construction (c : Construction) : Prop :=
  match c with
  | ConstructEmpty => True
  | ConstructShape _ h w d s => 0 < h /\ 0 < w /\ 0 < d /\ 0 < s
  end.

Definition positive_op (o : BufferOp) : Prop :=
  match o with
  | OpUpload img => 0 < height img /\ 0 < width img /\ 0 < depth img /\ 0 < itemSize img
  | OpDownload _ => True
  end.

(** The state the specification allows: all zero and unallocated, or all
    positive and allocated. *)
Definition all_or_nothing (b : GPUImage) : Prop :=
  (shape_zero b /\ unallocated b = true) \/ (shape_positive b /\ unallocated b = false).

(** The state the code keeps: all zero and unallocated, or all positive
    (allocated or not). *)
Definition zero_or_positive (b : GPUImage) : Prop :=
  (shape_zero b /\ unallocated b = true) \/ shape_positive b.

(** The store of [w'] is that of [w] (memories, allocator, control
    blocks); its trace has [fr] in front. *)
Definition store_frame (w w' : World) (fr : list Event) : Prop :=
  host_mem w' = host_mem w /\ dev_mem w' = dev_mem w /\
  dev_live w' = dev_live w /\ blocks w' = blocks w /\
  trace w' = fr ++ trace w.

(** ** The demo's image wrapper *)

(** [cv::Mat] as [wrapCVMat] reads it.  In OpenCV [elemSize1()] is the byte
    size of one channel of one element and [elemSize()] that of a whole
    element, [channels() * elemSize1()]; both are [size_t]. *)
Record Mat := mk_Mat {
  rows : Z;
  cols : Z;
  channels : Z;
  elemSize1 : Z;
  ptr : Z
}.

Definition elemSize (m : Mat) : Z := to_size_t (channels m * elemSize1 m).

(** [wrapCVMat(cvMat, img)] of [processVideo.cpp]: every field of [img] is
    overwritten.  [cols*elemSize()] is a [size_t] product stored in an
    [int]. *)
Definition wrapCVMat (cvMat : Mat) (img : image_t) : image_t :=
  {| height := rows cvMat;
     width := cols cvMat;
     depth := channels cvMat;
     pitch := wrap_int (to_size_t (to_size_t (cols cvMat) * elemSize cvMat));
     itemSize := wrap_int (to_size_t (elemSize1 cvMat));
     data := ptr cvMat |}.

(** ** Further vocabulary *)

Definition is_destroy_texture (e : Event) : bool :=
  match e with EvDestroyTextureObject _ => true | _ => false end.

Definition is_malloc (e : Event) : bool :=
  match e with EvMallocPitch _ _ => true | _ => false end.

Definition is_malloc_or_free (e : Event) : bool :=
  match e with EvMallocPitch _ _ | EvFree _ => true | _ => false end.

(** Between [w] and [w'] the allocator and the control blocks did not
    change, and no allocation or release was asked of the runtime. *)
Definition fixed_store (w w' : World) : Prop :=
  dev_live w' = dev_live w /\ blocks w' = blocks w /\
  exists fr, trace w' = fr ++ trace w /\ List.filter is_malloc_or_free fr = [].

(** The bytes of the pitched allocation of a buffer. *)
Definition in_allocation (this : GPUImage) (a : Z) : Prop :=
  GPUImage_data this <= a < GPUImage_data this + __pitch this * __height this.

(** A default-constructed buffer and an empty [cv::Mat] header of three
    one-byte channels, 640 columns, 480 rows. *)
Definition sample_mat : Mat :=
  {| rows := 480; cols := 640; channels := 3; elemSize1 := 1; ptr := 4096 |}.

(** A valid texture over the sample buffer. *)
Definition sample_texture_alloc : GPUTexture * World :=
  @GPUTexture_over aligned_runtime false 0 sample_buffer cudaChannelFormatKindUnsigned
    cudaAddressModeClamp cudaFilterModePoint cudaReadModeElementType sample_world.

(** The buffer is the only owner of a control block that manages its
    device pointer. *)
Definition sole_owner (b : GPUImage) (w : World) : Prop :=
  exists i, ctrl (__ptr_dev b) = Some i
            /\ blocks w !! i = Some (GPUImage_data b, 1%nat).

(** No [cudaFree] of a non-null pointer among the events. *)
Definition frees_only_null (fr : list Event) : Prop :=
  forall q, q <> 0 -> List.filter (is_free_of q) fr = [].

(** Since world [w0] the buffer [b] acquired at most its own allocation and
    nothing was released. *)
Definition owns_since (w0 : World) (b : GPUImage) (w : World) : Prop :=
  sole_owner b w
  /\ dev_live w = (if unallocated b then dev_live w0 else GPUImage_data b :: dev_live w0)
  /\ exists fr, trace w = fr ++ trace w0 /\ frees_only_null fr.

(** What [upload] does after the allocation step: the validation and the
    copy. *)
Definition upload_tail (b : GPUImage) (img : image_t) : M GPUImage :=
  if compareShape b img then
    e <- cudaMemcpy2D (get (__ptr_dev b)) (__pitch b)
           (data img) (to_size_t (pitch img))
           (row_bytes b) (to_size_t (__height b))
           cudaMemcpyHostToDevice ;;
    checkError e ;;
    ret b
  else
    cerr "ERROR: GPUImage::upload(): shapes do not match" ;;
    ret b.

(** * Properties *)

(** ** Integer facts *)

Lemma wrap_int_small (z : Z) : is_int z -> wrap_int z = z.
Proof.
  unfold is_int, INT_MIN, INT_MAX, wrap_int. intros H.
  rewrite Z.mod_small by lia. lia.
Qed.

Lemma wrap_int_mul_l (a c : Z) : wrap_int (wrap_int a * c) = wrap_int (a * c).
Proof.
  unfold wrap_int.
  f_equal.
  pose proof (Z.div_mod (a + 2147483648) 4294967296 ltac:(lia)) as E.
  set (k := (a + 2147483648) / 4294967296) in *.
  set (m := (a + 2147483648) mod 4294967296) in *.
  replace (a * c + 2147483648)
    with ((m - 2147483648) * c + 2147483648 + (k * c) * 4294967296) by lia.
  now rewrite Z.mod_add by lia.
Qed.

Lemma int_mul_chain (a b c : Z) :
  is_int (a * b * c) -> int_mul (int_mul a b) c = a * b * c.
Proof.
  intros H. unfold int_mul. rewrite wrap_int_mul_l. now apply wrap_int_small.
Qed.

Lemma to_size_t_small (z : Z) :
  0 <= z < 18446744073709551616 -> to_size_t z = z.
Proof. intros H. unfold to_size_t. now apply Z.mod_small. Qed.

Lemma row_bytes_exact (this : GPUImage) :
  0 <= __width this * __depth this * __itemSize this <= INT_MAX ->
  row_bytes this = __width this * __depth this * __itemSize this.
Proof.
  unfold INT_MAX. intros H. unfold row_bytes.
  rewrite int_mul_chain by (unfold is_int, INT_MIN, INT_MAX; lia).
  apply to_size_t_small. lia.
Qed.

(** ** Traces *)

Lemma new_events_app (l : list Event) (w w' : World) :
  trace w' = l ++ trace w -> new_events w w' = l.
Proof.
  intros H. unfold new_events. rewrite H, length_app.
  replace (length l + length (trace w) - length (trace w))%nat with (length l) by lia.
  now rewrite take_app_length.
Qed.

Lemma new_events_emit (e : Event) (w : World) : new_events w (emit e w) = [e].
Proof. now apply new_events_app. Qed.

(** ** Shape validation *)

Lemma compareShape_true (this : GPUImage) (img : image_t) :
  compareShape this img = true <->
  __height this = height img /\ __width this = width img /\
  __depth this = depth img /\ __itemSize this = itemSize img.
Proof.
  unfold compareShape. rewrite !andb_true_iff, !Z.eqb_eq. tauto.
Qed.

Lemma compareShape_false (this : GPUImage) (img : image_t) :
  (height img, width img, depth img, itemSize img)
    <> (__height this, __width this, __depth this, __itemSize this) ->
  compareShape this img = false.
Proof.
  intros H. destruct (compareShape this img) eqn:E; [|reflexivity].
  apply compareShape_true in E. destruct E as (E1 & E2 & E3 & E4).
  contradiction H. now rewrite E1, E2, E3, E4.
Qed.

Section Transfers.

Context {rt : CudaRuntime}.

(** What [upload] and [download] do once the buffer is allocated and the
    shapes agree: one [cudaMemcpy2D], then [checkError]. *)
Lemma upload_allocated_match (this : GPUImage) (img : image_t) (w : World) :
  unallocated this = false ->
  compareShape this img = true ->
  upload this img w =
    let (e, w1) := cudaMemcpy2D (get (__ptr_dev this)) (__pitch this)
                     (data img) (to_size_t (pitch img))
                     (row_bytes this) (to_size_t (__height this))
                     cudaMemcpyHostToDevice w in
    (this, snd (checkError e w1)).
Proof.
  intros Ha Hs. unfold upload, bind. rewrite Ha. unfold ret at 1. rewrite Hs.
  destruct (cudaMemcpy2D _ _ _ _ _ _ _ w) as [e w1].
  now destruct (checkError e w1).
Qed.

Lemma download_allocated_match (this : GPUImage) (img : image_t) (w : World) :
  unallocated this = false ->
  compareShape this img = true ->
  download this img w =
    let (e, w1) := cudaMemcpy2D (data img) (to_size_t (pitch img))
                     (get (__ptr_dev this)) (__pitch this)
                     (row_bytes this) (to_size_t (__height this))
                     cudaMemcpyDeviceToHost w in
    checkError e w1.
Proof.
  intros Ha Hs. unfold download, bind. now rewrite Ha, Hs.
Qed.

Lemma cudaMemcpy2D_trace dst dpitch src spitch width height kind (w : World) :
  trace (snd (cudaMemcpy2D dst dpitch src spitch width height kind w))
  = EvMemcpy2D dst dpitch src spitch width height kind :: trace w.
Proof.
  unfold cudaMemcpy2D.
  destruct (_ || _); [reflexivity|].
  destruct (_ || _); [reflexivity|].
  now destruct kind.
Qed.

Lemma checkError_extends (e : cudaError_t) (w : World) :
  exists diag, trace (snd (checkError e w)) = diag ++ trace w
               /\ List.filter is_memcpy diag = [].
Proof.
  unfold checkError. destruct (cudaError_eqb e cudaSuccess).
  - now exists [].
  - now eexists [_].
Qed.

Lemma upload_mismatch (this : GPUImage) (img : image_t) (w : World) :
  unallocated this = false ->
  compareShape this img = false ->
  upload this img w
  = (this, emit (EvCerr "ERROR: GPUImage::upload(): shapes do not match") w).
Proof.
  intros Ha Hs. unfold upload, bind. rewrite Ha. unfold ret at 1. now rewrite Hs.
Qed.

Lemma download_mismatch (this : GPUImage) (img : image_t) (w : World) :
  unallocated this = false ->
  compareShape this img = false ->
  download this img w
  = (tt, emit (EvCerr "ERROR: GPUImage::download(): shapes do not match") w).
Proof.
  intros Ha Hs. unfold download. now rewrite Ha, Hs.
Qed.

(** C4: on an allocated buffer, an upload or a download whose host image
    differs from the buffer in height, width, depth or itemSize only writes
    the shape-mismatch diagnostic: no copy is issued, the buffer value
    (shape fields, pitch, device pointer) is returned as it was, and both
    memories, the allocator and the control blocks are those of the world
    before. *)
Theorem shape_mismatch_no_copy (this : GPUImage) (img : image_t) (w : World) :
  unallocated this = false ->
  (height img, width img, depth img, itemSize img)
    <> (__height this, __width this, __depth this, __itemSize this) ->
  upload this img w
    = (this, emit (EvCerr "ERROR: GPUImage::upload(): shapes do not match") w)
  /\ download this img w
    = (tt, emit (EvCerr "ERROR: GPUImage::download(): shapes do not match") w).
Proof.
  intros Ha Hne. apply compareShape_false in Hne.
  split; [now apply upload_mismatch|now apply download_mismatch].
Qed.

(** C5: a download from an unallocated buffer only writes the
    unallocated-image diagnostic, whatever the host image: no copy is
    issued and the world (host memory included) is otherwise the one
    before; the buffer is not an output of [download]. *)
Theorem download_unallocated (this : GPUImage) (img : image_t) (w : World) :
  unallocated this = true ->
  download this img w
    = (tt, emit (EvCerr "ERROR: GPUImage::download(): unallocated image") w).
Proof.
  intros Ha. unfold download. now rewrite Ha.
Qed.

(** C10: the validation of [upload] and [download] accepts a host image
    exactly when its height, width, depth and itemSize equal the buffer's;
    the pitch and the data pointer of the host image play no part, so on an
    allocated buffer an image of equal shape passes whatever its pitch
    (also below the row size) and the copy is handed to the runtime with
    that pitch. *)
Theorem shape_validation_ignores_pitch (this : GPUImage) (img : image_t) (w : World) :
  unallocated this = false ->
  __height this = height img -> __width this = width img ->
  __depth this = depth img -> __itemSize this = itemSize img ->
  (forall img', compareShape this img' = true <->
     __height this = height img' /\ __width this = width img' /\
     __depth this = depth img' /\ __itemSize this = itemSize img')
  /\ (forall p d, compareShape this
        (mk_image_t (height img) (width img) (depth img) p (itemSize img) d) = true)
  /\ List.filter is_memcpy (new_events w (snd (upload this img w)))
     = [EvMemcpy2D (get (__ptr_dev this)) (__pitch this)
          (data img) (to_size_t (pitch img))
          (row_bytes this) (to_size_t (__height this)) cudaMemcpyHostToDevice]
  /\ List.filter is_memcpy (new_events w (snd (download this img w)))
     = [EvMemcpy2D (data img) (to_size_t (pitch img))
          (get (__ptr_dev this)) (__pitch this)
          (row_bytes this) (to_size_t (__height this)) cudaMemcpyDeviceToHost].
Proof.
  intros Ha Hh Hw Hd Hs.
  assert (Hc : compareShape this img = true) by now apply compareShape_true.
  split; [intros img'; apply compareShape_true|].
  split; [intros p d; now apply compareShape_true|].
  split.
  - rewrite (upload_allocated_match _ _ _ Ha Hc).
    pose proof (cudaMemcpy2D_trace (get (__ptr_dev this)) (__pitch this)
      (data img) (to_size_t (pitch img)) (row_bytes this)
      (to_size_t (__height this)) cudaMemcpyHostToDevice w) as Ht.
    destruct (cudaMemcpy2D _ _ _ _ _ _ _ w) as [e w1]. simpl snd in *.
    destruct (checkError_extends e w1) as (diag & Hd1 & Hd2).
    rewrite (new_events_app (diag ++ [EvMemcpy2D (get (__ptr_dev this)) (__pitch this)
      (data img) (to_size_t (pitch img)) (row_bytes this)
      (to_size_t (__height this)) cudaMemcpyHostToDevice])).
    + now rewrite List.filter_app, Hd2.
    + now rewrite Hd1, Ht, <- app_assoc.
  - rewrite (download_allocated_match _ _ _ Ha Hc).
    pose proof (cudaMemcpy2D_trace (data img) (to_size_t (pitch img))
      (get (__ptr_dev this)) (__pitch this) (row_bytes this)
      (to_size_t (__height this)) cudaMemcpyDeviceToHost w) as Ht.
    destruct (cudaMemcpy2D _ _ _ _ _ _ _ w) as [e w1]. simpl snd in *.
    destruct (checkError_extends e w1) as (diag & Hd1 & Hd2).
    rewrite (new_events_app (diag ++ [EvMemcpy2D (data img) (to_size_t (pitch img))
      (get (__ptr_dev this)) (__pitch this) (row_bytes this)
      (to_size_t (__height this)) cudaMemcpyDeviceToHost])).
    + now rewrite List.filter_app, Hd2.
    + now rewrite Hd1, Ht, <- app_assoc.
Qed.

End Transfers.

(** ** The strided copy *)

Lemma copy_rows_inside (rows : nat) (from : Mem) (src spitch dst dpitch width : Z)
    (to : Mem) (r : nat) (c : Z) :
  (r < rows)%nat -> 0 <= c < width -> width <= dpitch ->
  copy_rows rows from src spitch dst dpitch width to (dst + Z.of_nat r * dpitch + c)
  = from (src + Z.of_nat r * spitch + c).
Proof.
  intros Hr Hc Hp. induction rows as [|k IH]; [lia|].
  simpl. unfold copy_row.
  destruct (Nat.eq_dec r k) as [->|Hne].
  - replace ((dst + Z.of_nat k * dpitch <=? dst + Z.of_nat k * dpitch + c)
             && (dst + Z.of_nat k * dpitch + c <? dst + Z.of_nat k * dpitch + width))
      with true by (symmetry; apply andb_true_iff; split; [apply Z.leb_le|apply Z.ltb_lt]; lia).
    f_equal. lia.
  - replace (dst + Z.of_nat k * dpitch <=? dst + Z.of_nat r * dpitch + c)
      with false by (symmetry; apply Z.leb_gt; nia).
    simpl. apply IH. lia.
Qed.

Lemma copy_rows_outside (rows : nat) (from : Mem) (src spitch dst dpitch width : Z)
    (to : Mem) (a : Z) :
  (forall r, (r < rows)%nat ->
     ~ (dst + Z.of_nat r * dpitch <= a < dst + Z.of_nat r * dpitch + width)) ->
  copy_rows rows from src spitch dst dpitch width to a = to a.
Proof.
  induction rows as [|k IH]; intros Hout; [reflexivity|].
  simpl. unfold copy_row.
  destruct ((dst + Z.of_nat k * dpitch <=? a) && (a <? dst + Z.of_nat k * dpitch + width)) eqn:E.
  - apply andb_true_iff in E. destruct E as [E1%Z.leb_le E2%Z.ltb_lt].
    exfalso. apply (Hout k); lia.
  - apply IH. intros r Hr. apply Hout. lia.
Qed.

Lemma cudaMemcpy2D_success dst dpitch src spitch width height kind (w : World) :
  dst <> 0 -> src <> 0 -> width <= dpitch -> width <= spitch ->
  cudaMemcpy2D dst dpitch src spitch width height kind w =
  (cudaSuccess,
   let w1 := emit (EvMemcpy2D dst dpitch src spitch width height kind) w in
   match kind with
   | cudaMemcpyHostToDevice =>
       set_dev_mem (copy_rows (Z.to_nat height) (host_mem w)
                      src spitch dst dpitch width (dev_mem w)) w1
   | cudaMemcpyDeviceToHost =>
       set_host_mem (copy_rows (Z.to_nat height) (dev_mem w)
                       src spitch dst dpitch width (host_mem w)) w1
   end).
Proof.
  intros Hd Hs Hdp Hsp. unfold cudaMemcpy2D.
  apply Z.eqb_neq in Hd, Hs. rewrite Hd, Hs. simpl orb.
  replace (dpitch <? width) with false by (symmetry; apply Z.ltb_ge; lia).
  replace (spitch <? width) with false by (symmetry; apply Z.ltb_ge; lia).
  simpl orb. cbv iota. now destruct kind.
Qed.

Section RoundTrip.

Context {rt : CudaRuntime}.

Variable this : GPUImage.

Hypothesis Halloc : unallocated this = false.
Hypothesis Hpitch : row_bytes this <= __pitch this.

Lemma valid_image_sizes (img : image_t) :
  compareShape this img = true -> valid_image img ->
  row_bytes this = width img * depth img * itemSize img
  /\ to_size_t (__height this) = height img
  /\ to_size_t (pitch img) = pitch img.
Proof.
  intros Hs (Hh & Hw & Hd & Hi & Hp & _).
  apply compareShape_true in Hs. destruct Hs as (Eh & Ew & Ed & Es).
  unfold INT_MAX in *.
  assert (0 < width img * depth img * itemSize img) by nia.
  split; [|split].
  - rewrite row_bytes_exact; rewrite Ew, Ed, Es; [reflexivity|].
    unfold INT_MAX. lia.
  - rewrite Eh. apply to_size_t_small. lia.
  - apply to_size_t_small. lia.
Qed.

Lemma upload_valid (img : image_t) (w : World) :
  compareShape this img = true -> valid_image img ->
  upload this img w =
  (this,
   set_dev_mem
     (copy_rows (Z.to_nat (height img)) (host_mem w)
        (data img) (pitch img) (get (__ptr_dev this)) (__pitch this)
        (width img * depth img * itemSize img) (dev_mem w))
     (emit (EvMemcpy2D (get (__ptr_dev this)) (__pitch this) (data img) (pitch img)
              (width img * depth img * itemSize img) (height img)
              cudaMemcpyHostToDevice) w)).
Proof.
  intros Hs Hv.
  destruct (valid_image_sizes img Hs Hv) as (Er & Eh & Ep).
  rewrite (upload_allocated_match _ _ _ Halloc Hs).
  rewrite Er, Eh, Ep in *.
  rewrite cudaMemcpy2D_success; [reflexivity| | | |].
  - unfold unallocated in Halloc. now apply Z.eqb_neq.
  - apply Hv.
  - exact Hpitch.
  - apply Hv.
Qed.

Lemma download_valid (img : image_t) (w : World) :
  compareShape this img = true -> valid_image img ->
  download this img w =
  (tt,
   set_host_mem
     (copy_rows (Z.to_nat (height img)) (dev_mem w)
        (get (__ptr_dev this)) (__pitch this) (data img) (pitch img)
        (width img * depth img * itemSize img) (host_mem w))
     (emit (EvMemcpy2D (data img) (pitch img) (get (__ptr_dev this)) (__pitch this)
              (width img * depth img * itemSize img) (height img)
              cudaMemcpyDeviceToHost) w)).
Proof.
  intros Hs Hv.
  destruct (valid_image_sizes img Hs Hv) as (Er & Eh & Ep).
  rewrite (download_allocated_match _ _ _ Halloc Hs).
  rewrite Er, Eh, Ep in *.
  rewrite cudaMemcpy2D_success; [reflexivity| | | |].
  - apply Hv.
  - unfold unallocated in Halloc. now apply Z.eqb_neq.
  - apply Hv.
  - exact Hpitch.
Qed.

(** C3: on an allocated buffer whose pitch covers its row, uploading a
    valid host image [H] of the buffer's shape and then downloading into a
    valid host image [H'] of the same shape (each with its own pitch, at
    least the tight row size) leaves in every pixel byte of [H'] the byte
    [H] had at the same row and column; host bytes outside the rows of
    [H'] (its padding included) are not written, and the two copies move
    [width*depth*itemSize] bytes per row for [height] rows with the host
    pitch on one side and the device pitch on the other. *)
Theorem upload_download_roundtrip (H H' : image_t) (w : World) :
  compareShape this H = true ->
  valid_image H -> valid_image H' -> same_shape H H' ->
  let w1 := snd (upload this H w) in
  let w2 := snd (download this H' w1) in
  let row := width H * depth H * itemSize H in
  (forall r c, 0 <= r < height H -> 0 <= c < row ->
     host_mem w2 (pixel_addr H' r c) = host_mem w (pixel_addr H r c))
  /\ (forall a, ~ in_image H' a -> host_mem w2 a = host_mem w a)
  /\ new_events w w2 =
      [EvMemcpy2D (data H') (pitch H') (get (__ptr_dev this)) (__pitch this)
         row (height H) cudaMemcpyDeviceToHost;
       EvMemcpy2D (get (__ptr_dev this)) (__pitch this) (data H) (pitch H)
         row (height H) cudaMemcpyHostToDevice].
Proof.
  intros Hs Hv Hv' (Eh & Ew & Ed & Es).
  assert (Hs' : compareShape this H' = true).
  { apply compareShape_true. apply compareShape_true in Hs.
    destruct Hs as (? & ? & ? & ?). repeat split; congruence. }
  intros w1 w2 row. subst w1 w2.
  rewrite (upload_valid H w Hs Hv). cbn [snd].
  rewrite (download_valid H' _ Hs' Hv'). cbn [snd].
  rewrite <- Eh, <- Ew, <- Ed, <- Es. fold row.
  assert (Hrow : row <= __pitch this).
  { destruct (valid_image_sizes H Hs Hv) as (Er & _ & _). subst row. lia. }
  destruct Hv as (Hh & _ & _ & _ & Hp & _).
  destruct Hv' as (_ & _ & _ & _ & Hp' & _).
  rewrite <- Ew, <- Ed, <- Es in Hp'. fold row in Hp, Hp'.
  split; [|split].
  - intros r c Hr Hc. cbn [host_mem set_host_mem dev_mem set_dev_mem emit].
    unfold pixel_addr.
    rewrite <- (Z2Nat.id r) by lia.
    rewrite copy_rows_inside by lia.
    rewrite copy_rows_inside by lia.
    reflexivity.
  - intros a Hout. cbn [host_mem set_host_mem dev_mem set_dev_mem emit].
    apply copy_rows_outside. intros r Hr [Ha1 Ha2]. apply Hout.
    exists (Z.of_nat r), (a - (data H' + Z.of_nat r * pitch H')).
    rewrite <- Eh, <- Ew, <- Ed, <- Es. fold row. unfold pixel_addr.
    repeat split; lia.
  - now apply new_events_app.
Qed.

End RoundTrip.

(** ** Allocation *)

Lemma mem_frame_trans (w0 w1 w2 : World) (f1 f2 : list Event) :
  mem_frame w0 w1 f1 -> mem_frame w1 w2 f2 -> mem_frame w0 w2 (f2 ++ f1).
Proof.
  intros (Hh1 & Hd1 & Ht1) (Hh2 & Hd2 & Ht2). repeat split.
  - congruence.
  - congruence.
  - now rewrite Ht2, Ht1, app_assoc.
Qed.

Lemma cudaFree_frame (p : Z) (w : World) :
  mem_frame w (snd (cudaFree p w)) [EvFree p].
Proof.
  unfold cudaFree. destruct (p =? 0); [now repeat split|].
  destruct (is_live _ _); now repeat split.
Qed.

Lemma shared_ptr_release_frame (s : shared_ptr) (w : World) :
  exists fr, mem_frame w (snd (shared_ptr_release s w)) fr /\ only_frees fr.
Proof.
  unfold shared_ptr_release.
  destruct (ctrl s) as [i|]; [|exists []; now repeat split; try left].
  destruct (blocks w !! i) as [[p [|[|n]]]|];
    try (exists []; now repeat split; try left).
  exists [EvFree p]. split; [|right; now exists p].
  unfold gpu_deleter, bind, ret.
  pose proof (cudaFree_frame p (set_blocks (<[i:=(p, 0%nat)]> (blocks w)) w)) as Hf.
  destruct (cudaFree p _) as [e w']. exact Hf.
Qed.

Lemma shared_ptr_copy_frame (s : shared_ptr) (w : World) :
  fst (shared_ptr_copy s w) = s /\ mem_frame w (snd (shared_ptr_copy s w)) [].
Proof.
  unfold shared_ptr_copy.
  destruct (ctrl s) as [i|]; [|now repeat split].
  destruct (blocks w !! i) as [[p n]|]; now repeat split.
Qed.

Section Allocation.

Context {rt : CudaRuntime}.

(** The two outcomes of [allocate]: the buffer value it returns, and what it
    leaves of the world. *)
Lemma allocate_ok (this : GPUImage) (w : World) (p q : Z) :
  cudaMallocPitch_rt (dev_live w) (row_bytes this) (to_size_t (__height this))
    = MallocOk p q ->
  fst (allocate this w)
    = set_allocation q {| get := p; ctrl := Some (length (blocks w)) |} this
  /\ exists fr, only_frees fr /\
       mem_frame w (snd (allocate this w))
         (fr ++ [EvMallocPitch (row_bytes this) (to_size_t (__height this))]).
Proof.
  intros Hrt. unfold allocate, bind, cudaMallocPitch. cbn [dev_live emit].
  rewrite Hrt.
  set (w1 := if p =? 0 then _ else _).
  assert (Hw1 : mem_frame w w1 [EvMallocPitch (row_bytes this) (to_size_t (__height this))]
                /\ blocks w1 = blocks w).
  { subst w1. destruct (p =? 0); now repeat split. }
  destruct Hw1 as [Hf1 Hb1].
  unfold shared_ptr_make. rewrite Hb1.
  set (w2 := set_blocks _ w1).
  assert (Hf2 : mem_frame w1 w2 []) by now repeat split.
  destruct (shared_ptr_release_frame (__ptr_dev this) w2) as (fr & Hf3 & Hfr).
  destruct (shared_ptr_release (__ptr_dev this) w2) as [[] w3]. cbn [snd] in Hf3.
  cbn [cudaError_eqb ret fst snd]. split; [reflexivity|].
  exists fr. split; [exact Hfr|].
  pose proof (mem_frame_trans _ _ _ _ _ Hf1 (mem_frame_trans _ _ _ _ _ Hf2 Hf3)) as Hf.
  now rewrite app_nil_r in Hf.
Qed.

Lemma allocate_fail (this : GPUImage) (w : World) (e : cudaError_t) :
  cudaMallocPitch_rt (dev_live w) (row_bytes this) (to_size_t (__height this))
    = MallocFail e ->
  fst (allocate this w)
    = set_allocation (__pitch this) {| get := 0; ctrl := Some (length (blocks w)) |} this.
Proof.
  intros Hrt. unfold allocate, bind, cudaMallocPitch. cbn [dev_live emit].
  rewrite Hrt. unfold shared_ptr_make. cbn [blocks].
  destruct (shared_ptr_release _ _) as [[] w3].
  destruct (cudaError_eqb e cudaSuccess); reflexivity.
Qed.

Lemma allocate_pitch (this : GPUImage) (w : World) :
  pitch_covers_row (fst (allocate this w)).
Proof.
  destruct (cudaMallocPitch_rt (dev_live w) (row_bytes this) (to_size_t (__height this)))
    as [p q|e] eqn:Hrt.
  - destruct (allocate_ok this w p q Hrt) as [-> _]. intros _.
    cbn. apply (cudaMallocPitch_pitch _ _ _ _ _ Hrt).
  - rewrite (allocate_fail this w e Hrt). intros Ha. discriminate Ha.
Qed.

Lemma allocate_shape (this : GPUImage) (w : World) :
  let b := fst (allocate this w) in
  __height b = __height this /\ __width b = __width this /\
  __depth b = __depth this /\ __itemSize b = __itemSize this.
Proof.
  destruct (cudaMallocPitch_rt (dev_live w) (row_bytes this) (to_size_t (__height this)))
    as [p q|e] eqn:Hrt.
  - destruct (allocate_ok this w p q Hrt) as [E _]. cbv zeta. rewrite E. now cbn.
  - cbv zeta. rewrite (allocate_fail this w e Hrt). now cbn.
Qed.

(** [upload] returns either the buffer it was given (already allocated) or
    the result of [allocate] on the adopted shape; [apply_op] likewise. *)
Lemma upload_value (this : GPUImage) (img : image_t) (w : World) :
  fst (upload this img w) =
  if unallocated this
  then fst (allocate (set_shape (height img) (width img) (depth img) (itemSize img) this) w)
  else this.
Proof.
  unfold upload, bind.
  destruct (unallocated this).
  - destruct (allocate _ w) as [b w1]. cbn [fst].
    destruct (compareShape b img).
    + destruct (cudaMemcpy2D _ _ _ _ _ _ _ w1) as [e w2].
      now destruct (checkError e w2).
    + reflexivity.
  - unfold ret at 1. destruct (compareShape this img).
    + destruct (cudaMemcpy2D _ _ _ _ _ _ _ w) as [e w2].
      now destruct (checkError e w2).
    + reflexivity.
Qed.

Lemma apply_op_value (this : GPUImage) (o : BufferOp) (w : World) :
  fst (apply_op this o w) =
  match o with
  | OpUpload img => fst (upload this img w)
  | OpDownload _ => this
  end.
Proof.
  destruct o as [img|img]; [reflexivity|].
  unfold apply_op, bind. now destruct (download this img w).
Qed.

Lemma run_ops_invariant (P : GPUImage -> Prop) (ops : list BufferOp) :
  (forall this o w, In o ops -> P this -> P (fst (apply_op this o w))) ->
  forall this w, P this -> P (fst (run_ops this ops w)).
Proof.
  induction ops as [|o rest IH]; intros Hstep this w HP; [exact HP|].
  simpl. unfold bind.
  pose proof (Hstep this o w (or_introl eq_refl) HP) as HP1.
  destruct (apply_op this o w) as [b w1]. cbn [fst] in HP1.
  apply IH; [|exact HP1].
  intros t o' w' Hin. apply Hstep. now right.
Qed.

End Allocation.

(** ** Buffer invariants over sequences of operations *)

Section Invariants.

Context {rt : CudaRuntime}.

Lemma construct_pitch (c : Construction) (w : World) :
  pitch_covers_row (fst (construct c w)).
Proof.
  destruct c as [|raw h wd d s].
  - intros Ha. discriminate Ha.
  - apply allocate_pitch.
Qed.

Lemma apply_op_pitch (this : GPUImage) (o : BufferOp) (w : World) :
  pitch_covers_row this -> pitch_covers_row (fst (apply_op this o w)).
Proof.
  intros HP. rewrite apply_op_value. destruct o as [img|img]; [|exact HP].
  rewrite upload_value. destruct (unallocated this); [apply allocate_pitch|exact HP].
Qed.

(** C6, amended: for every buffer obtained by a construction (empty or
    with a shape) followed by any sequence of uploads and downloads, so
    also right after a successful construction with positive height,
    width, depth and itemSize, if the buffer is allocated and its row size
    width*depth*itemSize is representable as a non-negative [int], the
    recorded pitch is at least that row size. *)
Theorem pitch_covers_row_bytes (c : Construction) (ops : list BufferOp) (w : World) :
  let b := fst ((b0 <- construct c ;; run_ops b0 ops) w) in
  unallocated b = false ->
  0 <= __width b * __depth b * __itemSize b <= INT_MAX ->
  __width b * __depth b * __itemSize b <= __pitch b.
Proof.
  intros b Ha Hfit.
  assert (HP : pitch_covers_row b).
  { subst b. unfold bind.
    pose proof (construct_pitch c w) as H0.
    destruct (construct c w) as [b0 w0]. cbn [fst] in H0.
    apply run_ops_invariant; [|exact H0].
    intros t o w' _. apply apply_op_pitch. }
  rewrite <- (row_bytes_exact b Hfit). now apply HP.
Qed.

Lemma shape_of_allocate (h wd d s : Z) (this : GPUImage) (w : World) :
  0 < h /\ 0 < wd /\ 0 < d /\ 0 < s ->
  shape_positive (fst (allocate (set_shape h wd d s this) w)).
Proof.
  intros Hpos. destruct (allocate_shape (set_shape h wd d s this) w) as (Eh & Ew & Ed & Es).
  unfold shape_positive. rewrite Eh, Ew, Ed, Es. exact Hpos.
Qed.

Lemma construct_state (c : Construction) (w : World) :
  positive_construction c -> zero_or_positive (fst (construct c w)).
Proof.
  destruct c as [|raw h wd d s]; intros Hpos.
  - left. now repeat split.
  - right. apply (shape_of_allocate h wd d s
      {| __height := h; __width := wd; __depth := d; __pitch := raw;
         __itemSize := s; __ptr_dev := shared_ptr_empty |} w Hpos).
Qed.

Lemma apply_op_state (this : GPUImage) (o : BufferOp) (w : World) :
  positive_op o -> zero_or_positive this -> zero_or_positive (fst (apply_op this o w)).
Proof.
  intros Hpos HP. rewrite apply_op_value. destruct o as [img|img]; [|exact HP].
  rewrite upload_value. destruct (unallocated this); [|exact HP].
  right. now apply shape_of_allocate.
Qed.

(** C7, amended: after a construction and any sequence of uploads and
    downloads whose shapes are positive, the shape fields of the buffer are
    all zero with no allocation, or all positive; an allocated buffer has
    all-positive shape fields.  A failed allocation leaves the buffer
    unallocated (null device pointer) and keeps the shape it was asked for,
    so positive shape fields do not imply an allocation. *)
Theorem buffer_state_invariant (c : Construction) (ops : list BufferOp) (w : World) :
  positive_construction c ->
  Forall positive_op ops ->
  let b := fst ((b0 <- construct c ;; run_ops b0 ops) w) in
  zero_or_positive b
  /\ (unallocated b = false -> shape_positive b)
  /\ (forall this w0 e,
        cudaMallocPitch_rt (dev_live w0) (row_bytes this) (to_size_t (__height this))
          = MallocFail e ->
        let b' := fst (allocate this w0) in
        unallocated b' = true
        /\ (__height b', __width b', __depth b', __itemSize b')
           = (__height this, __width this, __depth this, __itemSize this)).
Proof.
  intros Hc Hops b.
  assert (HP : zero_or_positive b).
  { subst b. unfold bind.
    pose proof (construct_state c w Hc) as H0.
    destruct (construct c w) as [b0 w0]. cbn [fst] in H0.
    apply run_ops_invariant; [|exact H0].
    intros t o w' Hin. apply apply_op_state.
    rewrite List.Forall_forall in Hops. now apply Hops. }
  split; [exact HP|]. split.
  - intros Ha. destruct HP as [[_ Hu]|Hpos]; [congruence|exact Hpos].
  - intros this w0 e Hrt b'. subst b'. rewrite (allocate_fail this w0 e Hrt).
    now split.
Qed.

Lemma upload_unallocated (this : GPUImage) (img : image_t) (w : World) :
  unallocated this = true ->
  let r := allocate (set_shape (height img) (width img) (depth img) (itemSize img) this) w in
  unallocated (fst r) = false ->
  upload this img w = upload (fst r) img (snd r).
Proof.
  intros Hu r Ha. subst r. unfold upload at 1. unfold bind at 1. rewrite Hu.
  destruct (allocate _ w) as [b1 w1]. cbn [fst snd] in *.
  unfold upload, bind. rewrite Ha. reflexivity.
Qed.

(** C2, amended: when the platform allocation succeeds with a non-null
    pointer, an upload of a valid host image into an unallocated buffer
    adopts the image's height, width, depth and itemSize, allocates, and
    copies the image into the allocation without any diagnostic; a
    following upload of a host image of another shape only writes the
    shape-mismatch diagnostic: no copy, no allocation, buffer unchanged. *)
Theorem first_upload_allocates (this : GPUImage) (img img2 : image_t) (w : World)
    (p q : Z) :
  unallocated this = true ->
  valid_image img ->
  cudaMallocPitch_rt (dev_live w) (width img * depth img * itemSize img) (height img)
    = MallocOk p q ->
  p <> 0 ->
  (height img2, width img2, depth img2, itemSize img2)
    <> (height img, width img, depth img, itemSize img) ->
  let b1 := fst (upload this img w) in
  let w1 := snd (upload this img w) in
  let row := width img * depth img * itemSize img in
  (__height b1, __width b1, __depth b1, __itemSize b1)
    = (height img, width img, depth img, itemSize img)
  /\ GPUImage_data b1 = p /\ __pitch b1 = q
  /\ (exists fr, only_frees fr /\
        new_events w w1 =
          EvMemcpy2D p q (data img) (pitch img) row (height img) cudaMemcpyHostToDevice
          :: fr ++ [EvMallocPitch row (height img)])
  /\ (forall r c, 0 <= r < height img -> 0 <= c < row ->
        dev_mem w1 (p + r * q + c) = host_mem w (pixel_addr img r c))
  /\ upload b1 img2 w1
     = (b1, emit (EvCerr "ERROR: GPUImage::upload(): shapes do not match") w1).
Proof.
  intros Hu Hv Hrt Hp Hne b1 w1 row.
  set (this1 := set_shape (height img) (width img) (depth img) (itemSize img) this).
  assert (Hrow : row_bytes this1 = row).
  { destruct Hv as (? & ? & ? & ? & ? & ?).
    apply row_bytes_exact. cbn. unfold INT_MAX in *. nia. }
  assert (Hh : to_size_t (__height this1) = height img).
  { destruct Hv as (? & _). apply to_size_t_small. cbn. unfold INT_MAX in *. lia. }
  assert (Hrt1 : cudaMallocPitch_rt (dev_live w) (row_bytes this1)
                   (to_size_t (__height this1)) = MallocOk p q)
    by now rewrite Hrow, Hh.
  destruct (allocate_ok this1 w p q Hrt1) as (Eb & fr & Hfr & Hh1 & Hd1 & Ht1).
  rewrite Hrow, Hh in Ht1.
  assert (Ha : unallocated (fst (allocate this1 w)) = false).
  { rewrite Eb. cbn. now apply Z.eqb_neq. }
  assert (Hs : compareShape (fst (allocate this1 w)) img = true).
  { rewrite Eb. apply compareShape_true. now cbn. }
  assert (Hq : row_bytes (fst (allocate this1 w)) <= __pitch (fst (allocate this1 w)))
    by now apply allocate_pitch.
  pose proof (upload_unallocated this img w Hu Ha) as Eu. fold this1 in Eu.
  rewrite (upload_valid _ Ha Hq img _ Hs Hv) in Eu.
  subst b1 w1. rewrite Eu. cbn [fst snd]. rewrite Eb.
  cbn [set_allocation __height __width __depth __itemSize __pitch __ptr_dev get
       GPUImage_data this1 set_shape].
  split; [reflexivity|]. split; [reflexivity|]. split; [reflexivity|].
  fold row. split; [|split].
  - exists fr. split; [exact Hfr|]. apply new_events_app.
    cbn [trace set_dev_mem emit]. now rewrite Ht1.
  - intros r c Hr Hc. cbn [dev_mem set_dev_mem emit]. rewrite Hh1. unfold pixel_addr.
    rewrite <- (Z2Nat.id r) by lia.
    destruct Hv as (? & _).
    apply copy_rows_inside; try lia.
    rewrite <- Hrow. rewrite Eb in Hq. exact Hq.
  - apply upload_mismatch.
    + cbn. now apply Z.eqb_neq.
    + now apply compareShape_false.
Qed.

End Invariants.

(** ** Shared ownership *)

Lemma set_allocation_same (a : GPUImage) :
  set_allocation (__pitch a) (__ptr_dev a) a = a.
Proof. now destruct a. Qed.

Lemma set_blocks_same (w : World) : set_blocks (blocks w) w = w.
Proof. now destruct w. Qed.

Lemma set_blocks_twice (b1 b2 : list (Z * nat)) (w : World) :
  set_blocks b2 (set_blocks b1 w) = set_blocks b2 w.
Proof. reflexivity. Qed.

Lemma is_live_remove (p : Z) (l : list Z) : is_live p (remove_ptr p l) = false.
Proof.
  unfold is_live, remove_ptr. induction l as [|x l IH]; [reflexivity|].
  simpl. destruct (x =? p) eqn:E; simpl; [exact IH|]. now rewrite E.
Qed.

Lemma shared_ptr_copy_at (s : shared_ptr) (w : World) (i : nat) (p : Z) (n : nat) :
  ctrl s = Some i -> blocks w !! i = Some (p, n) ->
  shared_ptr_copy s w = (s, set_blocks (<[i := (p, S n)]> (blocks w)) w).
Proof. intros Hc Hl. unfold shared_ptr_copy. now rewrite Hc, Hl. Qed.

Lemma shared_ptr_release_shared (s : shared_ptr) (w : World) (i : nat) (p : Z) (n : nat) :
  ctrl s = Some i -> blocks w !! i = Some (p, S (S n)) ->
  shared_ptr_release s w = (tt, set_blocks (<[i := (p, S n)]> (blocks w)) w).
Proof. intros Hc Hl. unfold shared_ptr_release. now rewrite Hc, Hl. Qed.

Lemma shared_ptr_release_last (s : shared_ptr) (w : World) (i : nat) (p : Z) :
  ctrl s = Some i -> blocks w !! i = Some (p, 1%nat) ->
  exists w',
    shared_ptr_release s w = (tt, w')
    /\ host_mem w' = host_mem w /\ dev_mem w' = dev_mem w
    /\ blocks w' = <[i := (p, 0%nat)]> (blocks w)
    /\ trace w' = EvFree p :: trace w
    /\ dev_live w' = (if p =? 0 then dev_live w else remove_ptr p (dev_live w)).
Proof.
  intros Hc Hl. unfold shared_ptr_release. rewrite Hc, Hl.
  unfold gpu_deleter, bind, ret, cudaFree. cbn [dev_live emit set_blocks].
  destruct (p =? 0) eqn:Ep.
  - eexists. split; [reflexivity|]. now repeat split.
  - destruct (is_live p (dev_live w)) eqn:El.
    + eexists. split; [reflexivity|]. now repeat split.
    + eexists. split; [reflexivity|]. repeat split. cbn.
      unfold is_live in El. unfold remove_ptr.
      clear -El. induction (dev_live w) as [|x l IH]; [reflexivity|].
      simpl in *. apply orb_false_iff in El. destruct El as [E1 E2].
      rewrite E1. simpl. f_equal. now apply IH.
Qed.

(** ** Texture configuration *)

Section TextureProperties.

Context {rt : CudaRuntime}.

Lemma configure_over_4 (this : GPUTexture) (format : cudaChannelFormatKind)
    (addressMode : cudaTextureAddressMode) (filterMode : cudaTextureFilterMode)
    (readMode : cudaTextureReadMode) (w : World) :
  4 < __depth (__image this) ->
  configure this format addressMode filterMode readMode w
  = (this, emit (EvCerr ("ERROR: GPUTexture::configure(): image channels greater than 4: "
                         ++ show_int (__depth (__image this)))) w).
Proof.
  intros Hd. unfold configure, GPUImage_depth.
  now replace (4 <? __depth (__image this)) with true by (symmetry; now apply Z.ltb_lt).
Qed.

Lemma configure_upto_4 (this : GPUTexture) (format : cudaChannelFormatKind)
    (addressMode : cudaTextureAddressMode) (filterMode : cudaTextureFilterMode)
    (readMode : cudaTextureReadMode) (w : World) :
  __depth (__image this) <= 4 ->
  exists diag,
    store_frame w (snd (configure this format addressMode filterMode readMode w))
      (diag ++ [EvCreateTextureObject (resource_desc (__image this) format)
                  (texture_desc addressMode filterMode readMode)])
    /\ (diag = [] \/ exists msg, diag = [EvCerr msg])
    /\ __image (fst (configure this format addressMode filterMode readMode w))
        = __image this.
Proof.
  intros Hd. unfold configure, GPUImage_depth.
  replace (4 <? __depth (__image this)) with false by (symmetry; now apply Z.ltb_ge).
  unfold bind, cudaCreateTextureObject.
  destruct (cudaCreateTextureObject_rt _ _) as [t|e].
  - exists []. now repeat split; try left.
  - destruct (cudaError_eqb e cudaSuccess).
    + exists []. now repeat split; try left.
    + eexists [_]. repeat split. right. now eexists.
Qed.

Lemma configure_store (this : GPUTexture) (format : cudaChannelFormatKind)
    (addressMode : cudaTextureAddressMode) (filterMode : cudaTextureFilterMode)
    (readMode : cudaTextureReadMode) (w : World) :
  exists fr,
    store_frame w (snd (configure this format addressMode filterMode readMode w)) fr
    /\ (forall q, List.filter (is_free_of q) fr = [])
    /\ __image (fst (configure this format addressMode filterMode readMode w))
        = __image this.
Proof.
  destruct (Z_lt_le_dec 4 (__depth (__image this))) as [Hd|Hd].
  - rewrite configure_over_4 by exact Hd. eexists [_]. now repeat split.
  - destruct (configure_upto_4 this format addressMode filterMode readMode w Hd)
      as (diag & Hf & Hdiag & Hi).
    eexists. split; [exact Hf|]. split; [|exact Hi].
    intros q. destruct Hdiag as [->|[msg ->]]; reflexivity.
Qed.

(** The constructor reaches [configure] with the raw flag and handle and the
    image it was given; before that it only touched control blocks, and the
    only runtime call was the release of the null block of the
    default-constructed member. *)
Lemma GPUTexture_ctor_configure (raw_valid : bool) (raw_texture : Z) (img : GPUImage)
    (format : cudaChannelFormatKind) (addressMode : cudaTextureAddressMode)
    (filterMode : cudaTextureFilterMode) (readMode : cudaTextureReadMode) (w : World) :
  exists w1 fr,
    GPUTexture_ctor raw_valid raw_texture img format addressMode filterMode readMode w
    = configure {| __validTexture := raw_valid; __texture := raw_texture; __image := img |}
        format addressMode filterMode readMode w1
    /\ mem_frame w w1 fr /\ only_frees fr.
Proof.
  unfold GPUTexture_ctor, bind at 1.
  unfold GPUImage_ctor, bind at 1, shared_ptr_make at 1.
  unfold bind at 1. cbn [shared_ptr_release shared_ptr_empty ctrl ret].
  unfold bind at 1. unfold GPUImage_assign, bind at 1.
  set (w0 := set_blocks _ w).
  destruct (shared_ptr_copy_frame (__ptr_dev img) w0) as [Ec Hc].
  destruct (shared_ptr_copy (__ptr_dev img) w0) as [s wc]. cbn [fst snd] in Ec, Hc.
  subst s. unfold bind at 1. cbn [__ptr_dev].
  set (s0 := {| get := 0; ctrl := Some (length (blocks w)) |}).
  destruct (shared_ptr_release_frame s0 wc) as (fr & Hr & Hfr).
  destruct (shared_ptr_release s0 wc) as [[] wr]. cbn [snd] in Hr.
  unfold ret. rewrite set_allocation_same.
  exists wr, fr. split; [reflexivity|]. split; [|exact Hfr].
  assert (H0 : mem_frame w w0 []) by now repeat split.
  pose proof (mem_frame_trans _ _ _ _ _ H0 (mem_frame_trans _ _ _ _ _ Hc Hr)) as Hf.
  now rewrite !app_nil_r in Hf.
Qed.

Lemma only_frees_no_create (fr : list Event) :
  only_frees fr -> List.filter is_create_texture fr = [].
Proof. now intros [->|[q ->]]. Qed.

(** C1 (what the code does): over a buffer with more than 4 channels the
    constructor writes the channel-count diagnostic and asks the runtime
    for no texture object, but it never assigns the validity flag: the flag
    and the handle keep whatever the storage of the object held. *)
Theorem texture_over_4_channels_flag_unassigned (raw_valid : bool) (raw_texture : Z)
    (img : GPUImage) (format : cudaChannelFormatKind)
    (addressMode : cudaTextureAddressMode) (filterMode : cudaTextureFilterMode)
    (readMode : cudaTextureReadMode) (w : World) :
  4 < __depth img ->
  let t := fst (GPUTexture_ctor raw_valid raw_texture img format
                  addressMode filterMode readMode w) in
  let w' := snd (GPUTexture_ctor raw_valid raw_texture img format
                   addressMode filterMode readMode w) in
  __validTexture t = raw_valid
  /\ getTextureObject t = raw_texture
  /\ List.filter is_create_texture (new_events w w') = []
  /\ exists fr, new_events w w' =
        EvCerr ("ERROR: GPUTexture::configure(): image channels greater than 4: "
                ++ show_int (__depth img)) :: fr.
Proof.
  intros Hd t w'. subst t w'.
  destruct (GPUTexture_ctor_configure raw_valid raw_texture img format
              addressMode filterMode readMode w) as (w1 & fr & -> & (_ & _ & Ht) & Hfr).
  rewrite configure_over_4 by exact Hd. cbn [fst snd __validTexture getTextureObject __texture].
  split; [reflexivity|]. split; [reflexivity|].
  rewrite (new_events_app (EvCerr ("ERROR: GPUTexture::configure(): image channels greater than 4: "
                ++ show_int (__depth img)) :: fr)) by (cbn; now rewrite Ht).
  split; [|now exists fr].
  cbn. now apply only_frees_no_create.
Qed.

Lemma channel_desc_width (channels itemSize : Z) (format : cudaChannelFormatKind) (c : Z) :
  1 <= channels <= 4 ->
  channel_width (channel_desc channels itemSize format) c
  = if (0 <=? c) && (c <? channels) then int_mul 8 itemSize else 0.
Proof.
  intros Hc. unfold channel_width, channel_desc, cudaCreateChannelDesc.
  cbn [chan_x chan_y chan_z chan_w].
  repeat match goal with
  | |- context [?a =? ?b] => destruct (Z.eqb_spec a b)
  | |- context [?a <=? ?b] => destruct (Z.leb_spec a b)
  | |- context [?a <? ?b] => destruct (Z.ltb_spec a b)
  end; cbn; try reflexivity; lia.
Qed.

(** C9, amended: for a texture constructed over a buffer with depth
    between 1 and 4 whose 8*itemSize is representable as an [int], the
    runtime is asked for exactly one texture object, and the channel-format
    descriptor of that request gives 8*itemSize bits to each of the first
    depth channels and 0 to every other channel. *)
Theorem channel_widths (raw_valid : bool) (raw_texture : Z)
    (img : GPUImage) (format : cudaChannelFormatKind)
    (addressMode : cudaTextureAddressMode) (filterMode : cudaTextureFilterMode)
    (readMode : cudaTextureReadMode) (w : World) :
  1 <= __depth img <= 4 ->
  is_int (8 * __itemSize img) ->
  let w' := snd (GPUTexture_ctor raw_valid raw_texture img format
                   addressMode filterMode readMode w) in
  List.filter is_create_texture (new_events w w')
    = [EvCreateTextureObject (resource_desc img format)
         (texture_desc addressMode filterMode readMode)]
  /\ forall c, channel_width (pitch2D_desc (resource_desc img format)) c
              = if (0 <=? c) && (c <? __depth img) then 8 * __itemSize img else 0.
Proof.
  intros Hd Hfit w'. subst w'. split.
  - destruct (GPUTexture_ctor_configure raw_valid raw_texture img format
                addressMode filterMode readMode w) as (w1 & fr & -> & (_ & _ & Ht) & Hfr).
    destruct (configure_upto_4
                {| __validTexture := raw_valid; __texture := raw_texture; __image := img |}
                format addressMode filterMode readMode w1 ltac:(cbn; lia))
      as (diag & (_ & _ & _ & _ & Hc) & Hdiag & _).
    cbn [__image] in Hc.
    rewrite (new_events_app ((diag ++ [EvCreateTextureObject (resource_desc img format)
         (texture_desc addressMode filterMode readMode)]) ++ fr))
      by (rewrite Hc, Ht; apply List.app_assoc).
    rewrite !List.filter_app, (only_frees_no_create fr Hfr).
    destruct Hdiag as [->|[msg ->]]; reflexivity.
  - intros c. cbn [pitch2D_desc resource_desc]. unfold GPUImage_depth, GPUImage_itemSize.
    rewrite channel_desc_width by exact Hd.
    unfold int_mul. now rewrite wrap_int_small.
Qed.

End TextureProperties.

Section Ownership.

Context {rt : CudaRuntime}.

Variables (A : GPUImage) (w : World) (i n : nat).

Hypothesis Halloc : unallocated A = false.
Hypothesis Hctrl : ctrl (__ptr_dev A) = Some i.
Hypothesis Hblock : blocks w !! i = Some (GPUImage_data A, S n).

Local Abbreviation p := (GPUImage_data A).

Lemma owner_index : (i < length (blocks w))%nat.
Proof. exact (lookup_lt_Some _ _ _ Hblock). Qed.

Lemma GPUImage_copy_owner :
  GPUImage_copy A w = (A, set_blocks (<[i := (p, S (S n))]> (blocks w)) w).
Proof.
  unfold GPUImage_copy, bind. rewrite (shared_ptr_copy_at _ _ _ _ _ Hctrl Hblock).
  unfold ret. now rewrite set_allocation_same.
Qed.

Lemma GPUImage_dtor_after_copy :
  GPUImage_dtor A (set_blocks (<[i := (p, S (S n))]> (blocks w)) w) = (tt, w).
Proof.
  unfold GPUImage_dtor.
  rewrite (shared_ptr_release_shared _ _ i p n Hctrl).
  - cbn [blocks set_blocks]. rewrite set_blocks_twice.
    rewrite list_insert_insert_eq, list_insert_id by exact Hblock.
    now rewrite set_blocks_same.
  - cbn [blocks set_blocks]. apply list_lookup_insert_eq, owner_index.
Qed.

Lemma GPUTexture_ctor_owner (w0 : World) (k : nat) (raw_valid : bool) (raw_texture : Z)
    (format : cudaChannelFormatKind) (addressMode : cudaTextureAddressMode)
    (filterMode : cudaTextureFilterMode) (readMode : cudaTextureReadMode) :
  blocks w0 !! i = Some (p, k) ->
  exists w1,
    GPUTexture_ctor raw_valid raw_texture A format addressMode filterMode readMode w0
    = configure {| __validTexture := raw_valid; __texture := raw_texture; __image := A |}
        format addressMode filterMode readMode w1
    /\ host_mem w1 = host_mem w0 /\ dev_mem w1 = dev_mem w0
    /\ dev_live w1 = dev_live w0
    /\ blocks w1 = <[i := (p, S k)]> (blocks w0) ++ [(0, 0%nat)]
    /\ trace w1 = EvFree 0 :: trace w0.
Proof.
  intros Hl.
  pose proof (lookup_lt_Some _ _ _ Hl) as Hi.
  unfold GPUTexture_ctor, bind at 1.
  unfold GPUImage_ctor, bind at 1, shared_ptr_make at 1.
  unfold bind at 1. cbn [shared_ptr_release shared_ptr_empty ctrl ret].
  unfold bind at 1. unfold GPUImage_assign, bind at 1.
  rewrite (shared_ptr_copy_at _ _ i p k Hctrl)
    by (cbn [blocks set_blocks]; now apply lookup_app_l_Some).
  cbn [blocks set_blocks]. rewrite set_blocks_twice.
  unfold bind at 1.
  set (s0 := {| get := 0; ctrl := Some (length (blocks w0)) |}).
  set (w2 := set_blocks _ w0).
  destruct (shared_ptr_release_last s0 w2 (length (blocks w0)) 0 eq_refl)
    as (w1 & Er & Hh & Hd & Hb & Ht & Hv).
  { subst w2. cbn [blocks set_blocks].
    rewrite list_lookup_insert_ne by lia.
    now rewrite list_lookup_middle. }
  cbn [__ptr_dev]. rewrite Er. unfold ret. rewrite set_allocation_same.
  exists w1. split; [reflexivity|].
  subst w2. cbn [blocks set_blocks host_mem dev_mem trace dev_live] in *.
  repeat split; try assumption.
  rewrite Hb.
  rewrite <- (length_insert (blocks w0) i (p, S k)) at 1.
  rewrite insert_app_l by lia.
  rewrite insert_app_r_alt by (rewrite length_insert; lia).
  rewrite length_insert, Nat.sub_diag. reflexivity.
Qed.

Lemma GPUTexture_over_owner (raw_valid : bool) (raw_texture : Z)
    (format : cudaChannelFormatKind) (addressMode : cudaTextureAddressMode)
    (filterMode : cudaTextureFilterMode) (readMode : cudaTextureReadMode) :
  exists t v fr,
    GPUTexture_over raw_valid raw_texture A format addressMode filterMode readMode w
      = (t, v)
    /\ __image t = A
    /\ host_mem v = host_mem w /\ dev_mem v = dev_mem w /\ dev_live v = dev_live w
    /\ blocks v = <[i := (p, S (S n))]> (blocks w) ++ [(0, 0%nat)]
    /\ trace v = fr ++ EvFree 0 :: trace w
    /\ (forall q, List.filter (is_free_of q) fr = []).
Proof.
  unfold GPUTexture_over. unfold bind at 1. rewrite GPUImage_copy_owner.
  unfold bind at 1.
  destruct (GPUTexture_ctor_owner (set_blocks (<[i:=(p, S (S n))]> (blocks w)) w)
              (S (S n)) raw_valid raw_texture format addressMode filterMode readMode)
    as (w1 & -> & Hh & Hd & Hv & Hb & Ht).
  { cbn [blocks set_blocks]. apply list_lookup_insert_eq, owner_index. }
  cbn [blocks set_blocks host_mem dev_mem dev_live trace] in Hh, Hd, Hv, Hb, Ht.
  rewrite list_insert_insert_eq in Hb.
  destruct (configure_store
              {| __validTexture := raw_valid; __texture := raw_texture; __image := A |}
              format addressMode filterMode readMode w1)
    as (fr & (Hh2 & Hd2 & Hv2 & Hb2 & Ht2) & Hfr & Hi).
  destruct (configure _ _ _ _ _ w1) as [t w2]. cbn [fst snd __image] in *.
  unfold bind at 1. unfold GPUImage_dtor.
  rewrite (shared_ptr_release_shared _ w2 i p (S n) Hctrl).
  - eexists _, _, fr. split; [reflexivity|].
    cbn [blocks set_blocks host_mem dev_mem dev_live trace].
    rewrite Hb2, Hb, Hh2, Hd2, Hv2, Ht2, Ht.
    repeat split; try assumption.
    rewrite insert_app_l by (rewrite length_insert; apply owner_index).
    now rewrite list_insert_insert_eq.
  - rewrite Hb2, Hb. rewrite lookup_app_l by (rewrite length_insert; apply owner_index).
    apply list_lookup_insert_eq, owner_index.
Qed.

Lemma owner_nonnull : p <> 0.
Proof. unfold unallocated in Halloc. now apply Z.eqb_neq. Qed.

(** C8: a copy [B] of an allocated buffer [A] is the same value (same
    device pointer, same control block) and the use count of the shared
    allocation grows by one; destroying [A] then gives back the world as it
    was before the copy: nothing is released, the allocation stays live and
    device memory is untouched.  The deleter, which is [cudaFree], runs
    exactly when the last owner is destroyed, and once.  A texture built
    over [A] holds [A] in the same way: it shares the pointer and the
    control block, survives the destruction of [A], and its own destruction
    releases the allocation with one [cudaFree] if it is the last owner.
    [S n] is the number of owners of the allocation before. *)
Theorem shared_allocation_released_once (raw_valid : bool) (raw_texture : Z)
    (format : cudaChannelFormatKind) (addressMode : cudaTextureAddressMode)
    (filterMode : cudaTextureFilterMode) (readMode : cudaTextureReadMode) :
  let B := fst (GPUImage_copy A w) in
  let w1 := snd (GPUImage_copy A w) in
  let w2 := snd (GPUImage_dtor A w1) in
  let w3 := snd (GPUImage_dtor B w2) in
  let t := fst (GPUTexture_over raw_valid raw_texture A format
                  addressMode filterMode readMode w) in
  let v1 := snd (GPUTexture_over raw_valid raw_texture A format
                   addressMode filterMode readMode w) in
  let v2 := snd (GPUImage_dtor A v1) in
  let v3 := snd (GPUTexture_dtor t v2) in
  (B = A /\ use_count (__ptr_dev B) w1 = S (S n))
  /\ w2 = w
  /\ (n = 0%nat ->
        new_events w w3 = [EvFree p] /\ use_count (__ptr_dev B) w3 = 0%nat
        /\ is_live p (dev_live w3) = false /\ dev_mem w3 = dev_mem w)
  /\ (n <> 0%nat -> new_events w w3 = [] /\ dev_live w3 = dev_live w)
  /\ (__image t = A /\ use_count (__ptr_dev (__image t)) v1 = S (S n)
       /\ List.filter (is_free_of p) (new_events w v1) = []
       /\ dev_live v1 = dev_live w /\ dev_mem v1 = dev_mem w)
  /\ (new_events v1 v2 = [] /\ use_count (__ptr_dev (__image t)) v2 = S n
       /\ dev_live v2 = dev_live w /\ dev_mem v2 = dev_mem w)
  /\ (n = 0%nat ->
        List.filter (is_free_of p) (new_events v2 v3) = [EvFree p]
        /\ use_count (__ptr_dev (__image t)) v3 = 0%nat
        /\ is_live p (dev_live v3) = false).
Proof.
  intros B w1 w2 w3 t v1 v2 v3.
  assert (EB : B = A) by (subst B; now rewrite GPUImage_copy_owner).
  assert (Ew1 : w1 = set_blocks (<[i := (p, S (S n))]> (blocks w)) w)
    by (subst w1; now rewrite GPUImage_copy_owner).
  assert (Ew2 : w2 = w) by (subst w2; now rewrite Ew1, GPUImage_dtor_after_copy).
  pose proof owner_index as Hi.
  pose proof owner_nonnull as Hp.
  split; [split; [exact EB|]|].
  { rewrite EB, Ew1. unfold use_count. rewrite Hctrl. cbn [blocks set_blocks].
    now rewrite list_lookup_insert_eq. }
  split; [exact Ew2|].
  split; [|split].
  { intros ->. subst w3. rewrite Ew2, EB. unfold GPUImage_dtor.
    destruct (shared_ptr_release_last _ w i p Hctrl Hblock)
      as (w' & -> & Hh & Hd & Hb & Ht & Hv).
    cbn [snd]. split; [now apply new_events_app|].
    split; [unfold use_count; rewrite Hctrl, Hb; now rewrite list_lookup_insert_eq|].
    split; [|exact Hd].
    rewrite Hv. apply Z.eqb_neq in Hp. rewrite Hp. apply is_live_remove. }
  { intros Hn. subst w3. rewrite Ew2, EB. unfold GPUImage_dtor.
    destruct n as [|m]; [congruence|].
    rewrite (shared_ptr_release_shared _ w i p m Hctrl Hblock). cbn [snd].
    split; [now apply (new_events_app [])|reflexivity]. }
  destruct (GPUTexture_over_owner raw_valid raw_texture format addressMode
              filterMode readMode) as (t0 & v0 & fr & E & Ht & Hh & Hd & Hv & Hb & Htr & Hfr).
  assert (Et : t = t0) by (subst t; now rewrite E).
  assert (Ev : v1 = v0) by (subst v1; now rewrite E).
  clearbody t v1. subst t0 v0. clear E.
  assert (Hl1 : blocks v1 !! i = Some (p, S (S n))).
  { rewrite Hb, lookup_app_l by (rewrite length_insert; exact Hi).
    now apply list_lookup_insert_eq. }
  assert (Ev2 : v2 = set_blocks (<[i := (p, S n)]> (blocks v1)) v1).
  { subst v2. unfold GPUImage_dtor.
    now rewrite (shared_ptr_release_shared _ v1 i p n Hctrl Hl1). }
  assert (Hl2 : blocks v2 !! i = Some (p, S n)).
  { rewrite Ev2. cbn [blocks set_blocks]. apply list_lookup_insert_eq.
    exact (lookup_lt_Some _ _ _ Hl1). }
  split; [|split].
  - split; [exact Ht|]. rewrite Ht.
    split; [unfold use_count; now rewrite Hctrl, Hl1|].
    split; [|now split].
    rewrite (new_events_app (fr ++ [EvFree 0]))
      by (rewrite Htr; now rewrite <- List.app_assoc).
    rewrite List.filter_app, Hfr. cbn [List.filter is_free_of app].
    now replace (0 =? p) with false by (symmetry; apply Z.eqb_neq; lia).
  - rewrite Ht. split; [rewrite Ev2; now apply (new_events_app [])|].
    split; [unfold use_count; now rewrite Hctrl, Hl2|].
    rewrite Ev2. now split.
  - intros ->.
    assert (H3 : exists d,
               trace v3 = EvFree p :: d ++ trace v2
               /\ List.filter (is_free_of p) d = []
               /\ blocks v3 = <[i := (p, 0%nat)]> (blocks v2)
               /\ dev_live v3 = remove_ptr p (dev_live v2)).
    { subst v3. unfold GPUTexture_dtor, bind.
      set (pre := if __validTexture t then _ else _).
      assert (Hpre : exists d, store_frame v2 (snd (pre v2)) d
                               /\ List.filter (is_free_of p) d = []).
      { subst pre. destruct (__validTexture t).
        - exists [EvDestroyTextureObject (__texture t)]. now repeat split.
        - exists []. now repeat split. }
      destruct Hpre as (d & (Hh3 & Hd3 & Hv3 & Hb3 & Ht3) & Hd0).
      destruct (pre v2) as [[] v2']. cbn [snd] in *.
      rewrite Ht. unfold GPUImage_dtor.
      destruct (shared_ptr_release_last _ v2' i p Hctrl ltac:(now rewrite Hb3))
        as (w' & -> & Hh4 & Hd4 & Hb4 & Ht4 & Hv4).
      cbn [snd]. exists d.
      rewrite Ht4, Ht3, Hb4, Hb3, Hv4, Hv3.
      apply Z.eqb_neq in Hp. now rewrite Hp. }
    destruct H3 as (d & Ht3 & Hd0 & Hb3 & Hv3).
    rewrite (new_events_app (EvFree p :: d)) by (rewrite Ht3; reflexivity).
    split; [|split].
    + cbn [List.filter is_free_of]. rewrite Z.eqb_refl. now rewrite Hd0.
    + rewrite Ht. unfold use_count. rewrite Hctrl, Hb3.
      rewrite list_lookup_insert_eq; [reflexivity|].
      exact (lookup_lt_Some _ _ _ Hl2).
    + rewrite Hv3. apply is_live_remove.
Qed.

End Ownership.

(** * Further properties *)

(** ** Texture life cycle *)

Lemma cudaError_eqb_neq (e : cudaError_t) :
  e <> cudaSuccess -> cudaError_eqb e cudaSuccess = false.
Proof. now destruct e. Qed.

Section TextureLifeCycle.

Context {rt : CudaRuntime}.

Lemma configure_outcome (this : GPUTexture) (format : cudaChannelFormatKind)
    (addressMode : cudaTextureAddressMode) (filterMode : cudaTextureFilterMode)
    (readMode : cudaTextureReadMode) (w : World) :
  __depth (__image this) <= 4 ->
  let res := resource_desc (__image this) format in
  let tex := texture_desc addressMode filterMode readMode in
  let w1 := emit (EvCreateTextureObject res tex) w in
  configure this format addressMode filterMode readMode w =
  match cudaCreateTextureObject_rt res tex with
  | TextureOk h =>
      ({| __validTexture := true; __texture := h; __image := __image this |}, w1)
  | TextureFail e =>
      if cudaError_eqb e cudaSuccess
      then ({| __validTexture := true; __texture := __texture this;
               __image := __image this |}, w1)
      else ({| __validTexture := false; __texture := __texture this;
               __image := __image this |},
            emit (EvCerr ("ERROR: GPUTexture::configure(): texture creation: "
                          ++ cudaGetErrorString e)) w1)
  end.
Proof.
  intros Hd res tex w1. unfold configure, GPUImage_depth.
  replace (4 <? __depth (__image this)) with false by (symmetry; now apply Z.ltb_ge).
  unfold bind, cudaCreateTextureObject. fold res tex w1.
  destruct (cudaCreateTextureObject_rt res tex) as [h|e]; [reflexivity|].
  now destruct (cudaError_eqb e cudaSuccess).
Qed.

(** X1: over a buffer of at most 4 channels the constructed texture is
    valid exactly when the runtime created the texture object, and then its
    handle is the one the runtime returned; when the runtime refuses, the
    texture is invalid, its handle is never written, and the refusal is
    reported with the runtime's error string.  The held buffer is the one
    given in both cases. *)
Theorem texture_valid_iff_created (raw_valid : bool) (raw_texture : Z)
    (img : GPUImage) (format : cudaChannelFormatKind)
    (addressMode : cudaTextureAddressMode) (filterMode : cudaTextureFilterMode)
    (readMode : cudaTextureReadMode) (w : World) :
  __depth img <= 4 ->
  let t := fst (GPUTexture_ctor raw_valid raw_texture img format
                  addressMode filterMode readMode w) in
  let w' := snd (GPUTexture_ctor raw_valid raw_texture img format
                   addressMode filterMode readMode w) in
  __image t = img /\
  match cudaCreateTextureObject_rt (resource_desc img format)
          (texture_desc addressMode filterMode readMode) with
  | TextureOk h =>
      __validTexture t = true /\ getTextureObject t = h
      /\ forall msg, ~ In (EvCerr msg) (new_events w w')
  | TextureFail e =>
      e <> cudaSuccess ->
      __validTexture t = false /\ getTextureObject t = raw_texture
      /\ exists fr, new_events w w' =
           EvCerr ("ERROR: GPUTexture::configure(): texture creation: "
                   ++ cudaGetErrorString e) :: fr
  end.
Proof.
  intros Hd t w'. subst t w'.
  destruct (GPUTexture_ctor_configure raw_valid raw_texture img format
              addressMode filterMode readMode w) as (w1 & fr & -> & (_ & _ & Ht) & Hfr).
  rewrite configure_outcome by exact Hd. cbn [__image __texture].
  destruct (cudaCreateTextureObject_rt _ _) as [h|e].
  - cbn [fst snd __image __validTexture getTextureObject __texture].
    split; [reflexivity|]. split; [reflexivity|]. split; [reflexivity|].
    intros msg.
    rewrite (new_events_app (EvCreateTextureObject (resource_desc img format)
               (texture_desc addressMode filterMode readMode) :: fr))
      by (cbn; now rewrite Ht).
    intros [Hin|Hin]; [discriminate Hin|].
    destruct Hfr as [->|[q ->]]; [exact Hin|].
    destruct Hin as [Hin|[]]. discriminate Hin.
  - destruct (cudaError_eqb e cudaSuccess) eqn:Ee.
    + cbn [fst]. split; [reflexivity|]. intros Hne.
      now rewrite (cudaError_eqb_neq e Hne) in Ee.
    + cbn [fst snd __image __validTexture getTextureObject __texture].
      split; [reflexivity|]. intros _.
      split; [reflexivity|]. split; [reflexivity|].
      exists (EvCreateTextureObject (resource_desc img format)
                (texture_desc addressMode filterMode readMode) :: fr).
      apply new_events_app. cbn [trace emit]. now rewrite Ht.
Qed.

Lemma new_events_trans (w w1 w2 : World) (l1 l2 : list Event) :
  trace w1 = l1 ++ trace w -> trace w2 = l2 ++ trace w1 ->
  new_events w w2 = l2 ++ l1.
Proof.
  intros H1 H2. apply new_events_app. now rewrite H2, H1, List.app_assoc.
Qed.

Lemma only_frees_no_destroy (fr : list Event) :
  only_frees fr -> List.filter is_destroy_texture fr = [].
Proof. now intros [->|[q ->]]. Qed.

Lemma GPUTexture_dtor_events (t : GPUTexture) (w : World) :
  exists fr, only_frees fr /\
    mem_frame w (snd (GPUTexture_dtor t w))
      (fr ++ (if __validTexture t then [EvDestroyTextureObject (__texture t)] else [])).
Proof.
  unfold GPUTexture_dtor, bind.
  set (pre := if __validTexture t then _ else _).
  assert (Hpre : mem_frame w (snd (pre w))
            (if __validTexture t then [EvDestroyTextureObject (__texture t)] else [])).
  { subst pre. destruct (__validTexture t); now repeat split. }
  destruct (pre w) as [[] w1]. cbn [snd] in Hpre.
  unfold GPUImage_dtor.
  destruct (shared_ptr_release_frame (__ptr_dev (__image t)) w1) as (fr & Hf & Hfr).
  exists fr. split; [exact Hfr|].
  exact (mem_frame_trans _ _ _ _ _ Hpre Hf).
Qed.

(** X2: a texture over a buffer of at most 4 channels that is constructed
    and then destroyed releases the hardware texture object exactly when
    the runtime created one, once, and with the handle the runtime
    returned; when the creation was refused the destructor makes no
    texture call.  Neither step touches host or device memory. *)
Theorem texture_destroyed_iff_created (raw_valid : bool) (raw_texture : Z)
    (img : GPUImage) (format : cudaChannelFormatKind)
    (addressMode : cudaTextureAddressMode) (filterMode : cudaTextureFilterMode)
    (readMode : cudaTextureReadMode) (w : World) :
  __depth img <= 4 ->
  let t := fst (GPUTexture_ctor raw_valid raw_texture img format
                  addressMode filterMode readMode w) in
  let w1 := snd (GPUTexture_ctor raw_valid raw_texture img format
                   addressMode filterMode readMode w) in
  let w2 := snd (GPUTexture_dtor t w1) in
  host_mem w2 = host_mem w /\ dev_mem w2 = dev_mem w /\
  match cudaCreateTextureObject_rt (resource_desc img format)
          (texture_desc addressMode filterMode readMode) with
  | TextureOk h =>
      List.filter is_destroy_texture (new_events w w2) = [EvDestroyTextureObject h]
  | TextureFail e =>
      e <> cudaSuccess -> List.filter is_destroy_texture (new_events w w2) = []
  end.
Proof.
  intros Hd t w1 w2.
  destruct (GPUTexture_ctor_configure raw_valid raw_texture img format
              addressMode filterMode readMode w) as (w0 & fr & E & (Hh0 & Hd0 & Ht0) & Hfr).
  rewrite configure_outcome in E by exact Hd. cbn [__image __texture] in E.
  destruct (GPUTexture_dtor_events t w1) as (fr2 & Hfr2 & Hh2 & Hd2 & Ht2).
  fold w2 in Hh2, Hd2, Ht2.
  assert (Hmem : host_mem w1 = host_mem w /\ dev_mem w1 = dev_mem w
                 /\ exists ev, trace w1 = ev ++ trace w0
                               /\ List.filter is_destroy_texture ev = []).
  { subst w1. rewrite E. destruct (cudaCreateTextureObject_rt _ _) as [h|e];
      [|destruct (cudaError_eqb e cudaSuccess)]; cbn [snd host_mem dev_mem emit trace];
      (split; [exact Hh0|]); (split; [exact Hd0|]).
    - now eexists [_].
    - now eexists [_].
    - now eexists [_; _]. }
  destruct Hmem as (Hh1 & Hd1 & ev & Ht1 & Hev).
  split; [congruence|]. split; [congruence|].
  assert (Hne : new_events w w2
                = (fr2 ++ (if __validTexture t
                           then [EvDestroyTextureObject (__texture t)] else []))
                  ++ ev ++ fr).
  { apply (new_events_trans w w1 w2); [|exact Ht2].
    now rewrite Ht1, Ht0, List.app_assoc. }
  rewrite Hne, !List.filter_app, (only_frees_no_destroy _ Hfr2),
    (only_frees_no_destroy _ Hfr), Hev, app_nil_r. cbn [app].
  subst t. rewrite E.
  destruct (cudaCreateTextureObject_rt _ _) as [h|e]; [reflexivity|].
  intros Hne'. now rewrite (cudaError_eqb_neq e Hne').
Qed.

(** X3: a default-constructed texture is invalid and holds an empty,
    unallocated buffer; constructing it makes no runtime call, and
    destroying it makes no texture call: the only call is the release of
    the null pointer of the empty buffer. *)
Theorem default_texture_no_teardown (raw_texture : Z) (w : World) :
  let t := fst (GPUTexture_ctor_default raw_texture w) in
  let w1 := snd (GPUTexture_ctor_default raw_texture w) in
  let w2 := snd (GPUTexture_dtor t w1) in
  __validTexture t = false
  /\ unallocated (__image t) = true /\ shape_zero (__image t)
  /\ new_events w w1 = []
  /\ new_events w w2 = [EvFree 0]
  /\ dev_live w2 = dev_live w /\ host_mem w2 = host_mem w /\ dev_mem w2 = dev_mem w.
Proof.
  intros t w1 w2. subst t w1 w2.
  unfold GPUTexture_ctor_default, GPUImage_ctor, bind, shared_ptr_make.
  cbn [shared_ptr_release shared_ptr_empty ctrl ret fst snd __validTexture __image].
  split; [reflexivity|]. split; [reflexivity|]. split; [now repeat split|].
  split; [now apply (new_events_app [])|].
  unfold GPUTexture_dtor, bind. cbn [__validTexture ret __image GPUImage_dtor __ptr_dev].
  unfold GPUImage_dtor. cbn [__ptr_dev].
  set (w0 := set_blocks _ w).
  destruct (shared_ptr_release_last
              {| get := 0; ctrl := Some (length (blocks w)) |} w0 (length (blocks w)) 0
              eq_refl) as (w' & -> & Hh & Hd & _ & Ht & Hv).
  { subst w0. cbn [blocks set_blocks]. now rewrite list_lookup_middle. }
  cbn [snd]. split; [now apply new_events_app|].
  now rewrite Hv, Hh, Hd.
Qed.

Lemma configure_value (this : GPUTexture) (format : cudaChannelFormatKind)
    (addressMode : cudaTextureAddressMode) (filterMode : cudaTextureFilterMode)
    (readMode : cudaTextureReadMode) (w w' : World) :
  fst (configure this format addressMode filterMode readMode w)
  = fst (configure this format addressMode filterMode readMode w').
Proof.
  unfold configure. destruct (4 <? _); [reflexivity|].
  unfold bind, cudaCreateTextureObject.
  destruct (cudaCreateTextureObject_rt _ _) as [h|e]; [reflexivity|].
  now destruct (cudaError_eqb e cudaSuccess).
Qed.

Lemma configure_creates (this : GPUTexture) (format : cudaChannelFormatKind)
    (addressMode : cudaTextureAddressMode) (filterMode : cudaTextureFilterMode)
    (readMode : cudaTextureReadMode) (w : World) :
  exists ev,
    trace (snd (configure this format addressMode filterMode readMode w)) = ev ++ trace w
    /\ List.filter is_create_texture ev
       = if 4 <? __depth (__image this) then []
         else [EvCreateTextureObject (resource_desc (__image this) format)
                 (texture_desc addressMode filterMode readMode)].
Proof.
  destruct (Z.ltb_spec 4 (__depth (__image this))) as [Hd|Hd].
  - rewrite configure_over_4 by exact Hd. now eexists [_].
  - rewrite configure_outcome by exact Hd.
    destruct (cudaCreateTextureObject_rt _ _) as [h|e];
      [|destruct (cudaError_eqb e cudaSuccess)].
    + now eexists [_].
    + now eexists [_].
    + now eexists [_; _].
Qed.

Lemma GPUTexture_ctor_creates (raw_valid : bool) (raw_texture : Z) (img : GPUImage)
    (format : cudaChannelFormatKind) (addressMode : cudaTextureAddressMode)
    (filterMode : cudaTextureFilterMode) (readMode : cudaTextureReadMode) (w : World) :
  exists ev,
    trace (snd (GPUTexture_ctor raw_valid raw_texture img format
                  addressMode filterMode readMode w)) = ev ++ trace w
    /\ List.filter is_create_texture ev
       = if 4 <? __depth img then []
         else [EvCreateTextureObject (resource_desc img format)
                 (texture_desc addressMode filterMode readMode)].
Proof.
  destruct (GPUTexture_ctor_configure raw_valid raw_texture img format
              addressMode filterMode readMode w) as (w0 & fr & -> & (_ & _ & Ht0) & Hfr).
  destruct (configure_creates
              {| __validTexture := raw_valid; __texture := raw_texture; __image := img |}
              format addressMode filterMode readMode w0) as (ev & Ht & Hev).
  exists (ev ++ fr). split; [now rewrite Ht, Ht0, List.app_assoc|].
  now rewrite List.filter_app, Hev, (only_frees_no_create _ Hfr), app_nil_r.
Qed.

Lemma GPUTexture_ctor_format_eq (raw_valid : bool) (raw_texture : Z)
    (img : GPUImage) (format : cudaChannelFormatKind) (w : World) :
  exists w3 ev3,
    GPUTexture_ctor_format raw_valid raw_texture img format w
    = (fst (GPUTexture_ctor raw_valid raw_texture img format
              cudaAddressModeClamp cudaFilterModePoint cudaReadModeElementType w), w3)
    /\ trace w3 = ev3 ++ trace w
    /\ List.filter is_create_texture ev3
       = (if 4 <? __depth img then []
          else [EvCreateTextureObject (resource_desc img format)
                  (texture_desc cudaAddressModeClamp cudaFilterModePoint
                     cudaReadModeElementType)]).
Proof.
  unfold GPUTexture_ctor_format, bind. unfold GPUImage_copy at 1. unfold bind at 1.
  destruct (shared_ptr_copy_frame (__ptr_dev img) w) as [Ec (_ & _ & Htc)].
  destruct (shared_ptr_copy (__ptr_dev img) w) as [s wa]. cbn [fst snd] in Ec, Htc.
  subst s. unfold ret at 1. rewrite set_allocation_same.
  destruct (GPUTexture_ctor_creates raw_valid raw_texture img format
              cudaAddressModeClamp cudaFilterModePoint cudaReadModeElementType wa)
    as (ev & Ht & Hev).
  destruct (GPUTexture_ctor_configure raw_valid raw_texture img format
              cudaAddressModeClamp cudaFilterModePoint cudaReadModeElementType wa)
    as (w0 & fr & E & _).
  destruct (GPUTexture_ctor_configure raw_valid raw_texture img format
              cudaAddressModeClamp cudaFilterModePoint cudaReadModeElementType w)
    as (w0' & fr' & E' & _).
  rewrite E'.
  assert (Ef : fst (GPUTexture_ctor raw_valid raw_texture img format cudaAddressModeClamp
                      cudaFilterModePoint cudaReadModeElementType wa)
               = fst (configure
                        {| __validTexture := raw_valid; __texture := raw_texture;
                           __image := img |}
                        format cudaAddressModeClamp cudaFilterModePoint
                        cudaReadModeElementType w0')).
  { rewrite E. apply configure_value. }
  destruct (GPUTexture_ctor raw_valid raw_texture img format cudaAddressModeClamp
              cudaFilterModePoint cudaReadModeElementType wa) as [t w1].
  cbn [fst snd] in Ef, Ht.
  unfold GPUImage_dtor.
  destruct (shared_ptr_release_frame (__ptr_dev img) w1) as (fr3 & (_ & _ & Ht3) & Hfr3).
  destruct (shared_ptr_release (__ptr_dev img) w1) as [[] w3]. cbn [fst snd ret] in *.
  exists w3, (fr3 ++ ev). unfold ret. rewrite Ef.
  split; [reflexivity|].
  split; [now rewrite Ht3, Ht, Htc, List.app_assoc|].
  now rewrite List.filter_app, (only_frees_no_create _ Hfr3).
Qed.

(** X4: the two-argument constructor builds the same texture value as the
    five-argument one called with clamp addressing, point filtering and
    element-type reads, and asks the runtime for the same texture object;
    the copy of the buffer it passes by value does not change that. *)
Theorem two_argument_constructor_defaults (raw_valid : bool) (raw_texture : Z)
    (img : GPUImage) (format : cudaChannelFormatKind) (w : World) :
  fst (GPUTexture_ctor_format raw_valid raw_texture img format w)
  = fst (GPUTexture_ctor raw_valid raw_texture img format
           cudaAddressModeClamp cudaFilterModePoint cudaReadModeElementType w)
  /\ List.filter is_create_texture
       (new_events w (snd (GPUTexture_ctor_format raw_valid raw_texture img format w)))
     = (if 4 <? __depth img then []
        else [EvCreateTextureObject (resource_desc img format)
                (texture_desc cudaAddressModeClamp cudaFilterModePoint
                   cudaReadModeElementType)]).
Proof.
  destruct (GPUTexture_ctor_format_eq raw_valid raw_texture img format w)
    as (w3 & ev3 & -> & Ht & Hev).
  cbn [fst snd]. split; [reflexivity|].
  now rewrite (new_events_app ev3) by exact Ht.
Qed.

(** X5: for a buffer of at most 4 channels whose pitch, width and height are
    non-negative [int] values, the one texture object the constructor asks
    for is a pitched-2D resource over exactly the buffer's device pointer,
    recorded pitch, width and height, sampled with the requested address
    mode on both axes, the requested filter and read modes, and
    unnormalised coordinates. *)
Theorem texture_request_binds_buffer (raw_valid : bool) (raw_texture : Z)
    (img : GPUImage) (format : cudaChannelFormatKind)
    (addressMode : cudaTextureAddressMode) (filterMode : cudaTextureFilterMode)
    (readMode : cudaTextureReadMode) (w : World) :
  __depth img <= 4 ->
  0 <= __pitch img <= INT_MAX ->
  0 <= __width img <= INT_MAX ->
  0 <= __height img <= INT_MAX ->
  List.filter is_create_texture
    (new_events w (snd (GPUTexture_ctor raw_valid raw_texture img format
                          addressMode filterMode readMode w)))
  = [EvCreateTextureObject
       {| resType := cudaResourceTypePitch2D;
          pitch2D_desc := channel_desc (__depth img) (__itemSize img) format;
          pitch2D_devPtr := GPUImage_data img;
          pitch2D_pitchInBytes := __pitch img;
          pitch2D_width := __width img;
          pitch2D_height := __height img |}
       {| addressMode0 := addressMode; addressMode1 := addressMode;
          filterMode := filterMode; readMode := readMode;
          normalizedCoords := false |}].
Proof.
  intros Hd Hp Hw Hh. unfold INT_MAX in *.
  destruct (GPUTexture_ctor_creates raw_valid raw_texture img format
              addressMode filterMode readMode w) as (ev & Ht & Hev).
  rewrite (new_events_app ev) by exact Ht. rewrite Hev.
  replace (4 <? __depth img) with false by (symmetry; now apply Z.ltb_ge).
  unfold resource_desc, texture_desc, GPUImage_pitch, GPUImage_width, GPUImage_height,
    GPUImage_depth, GPUImage_itemSize.
  rewrite wrap_int_small by (unfold is_int, INT_MIN, INT_MAX; lia).
  now rewrite !to_size_t_small by lia.
Qed.

(** X6: the constructor does not require an allocated buffer or a channel:
    over a buffer of depth 1 or less (0 for a default-constructed buffer,
    whose device pointer is null) it still asks the runtime for a texture
    object, over the buffer's device pointer as it is, with a first channel
    of 8*itemSize bits (as [int]) and three empty channels. *)
Theorem texture_over_channelless_buffer (raw_valid : bool) (raw_texture : Z)
    (img : GPUImage) (format : cudaChannelFormatKind)
    (addressMode : cudaTextureAddressMode) (filterMode : cudaTextureFilterMode)
    (readMode : cudaTextureReadMode) (w : World) :
  __depth img <= 1 ->
  exists res,
    List.filter is_create_texture
      (new_events w (snd (GPUTexture_ctor raw_valid raw_texture img format
                            addressMode filterMode readMode w)))
    = [EvCreateTextureObject res (texture_desc addressMode filterMode readMode)]
    /\ pitch2D_devPtr res = GPUImage_data img
    /\ pitch2D_desc res
       = cudaCreateChannelDesc (int_mul 8 (__itemSize img)) 0 0 0 format.
Proof.
  intros Hd.
  destruct (GPUTexture_ctor_creates raw_valid raw_texture img format
              addressMode filterMode readMode w) as (ev & Ht & Hev).
  exists (resource_desc img format).
  rewrite (new_events_app ev) by exact Ht. rewrite Hev.
  replace (4 <? __depth img) with false by (symmetry; apply Z.ltb_ge; lia).
  split; [reflexivity|]. split; [reflexivity|].
  cbn [pitch2D_desc resource_desc]. unfold channel_desc, GPUImage_depth, GPUImage_itemSize.
  replace (2 <=? __depth img) with false by (symmetry; apply Z.leb_gt; lia).
  replace (3 <=? __depth img) with false by (symmetry; apply Z.leb_gt; lia).
  now replace (__depth img =? 4) with false by (symmetry; apply Z.eqb_neq; lia).
Qed.

End TextureLifeCycle.

(** ** Transfers: what they leave alone *)

Lemma checkError_frame (e : cudaError_t) (w : World) :
  exists diag, store_frame w (snd (checkError e w)) diag
               /\ (diag = [] \/ exists msg, diag = [EvCerr msg]).
Proof.
  unfold checkError. destruct (cudaError_eqb e cudaSuccess).
  - exists []. split; [now repeat split|now left].
  - eexists [_]. split; [now repeat split|right; now eexists].
Qed.

Lemma cudaMemcpy2D_to_device dst dpitch src spitch width height (w : World) :
  let w' := snd (cudaMemcpy2D dst dpitch src spitch width height
                   cudaMemcpyHostToDevice w) in
  host_mem w' = host_mem w /\ dev_live w' = dev_live w /\ blocks w' = blocks w.
Proof.
  unfold cudaMemcpy2D.
  destruct (_ || _); [now repeat split|].
  destruct (_ || _); now repeat split.
Qed.

Lemma cudaMemcpy2D_to_host dst dpitch src spitch width height (w : World) :
  let w' := snd (cudaMemcpy2D dst dpitch src spitch width height
                   cudaMemcpyDeviceToHost w) in
  dev_mem w' = dev_mem w /\ dev_live w' = dev_live w /\ blocks w' = blocks w.
Proof.
  unfold cudaMemcpy2D.
  destruct (_ || _); [now repeat split|].
  destruct (_ || _); now repeat split.
Qed.

Lemma fixed_store_refl (w : World) : fixed_store w w.
Proof. repeat split. now exists []. Qed.

Lemma fixed_store_trans (w0 w1 w2 : World) :
  fixed_store w0 w1 -> fixed_store w1 w2 -> fixed_store w0 w2.
Proof.
  intros (Hl1 & Hb1 & f1 & Ht1 & Hf1) (Hl2 & Hb2 & f2 & Ht2 & Hf2).
  split; [congruence|]. split; [congruence|].
  exists (f2 ++ f1). split; [now rewrite Ht2, Ht1, List.app_assoc|].
  now rewrite List.filter_app, Hf1, Hf2.
Qed.

Lemma fixed_store_emit (e : Event) (w : World) :
  is_malloc_or_free e = false -> fixed_store w (emit e w).
Proof. intros He. repeat split. exists [e]. split; [reflexivity|]. cbn. now rewrite He. Qed.

Lemma checkError_fixed (e : cudaError_t) (w : World) :
  fixed_store w (snd (checkError e w)).
Proof.
  unfold checkError. destruct (cudaError_eqb e cudaSuccess).
  - apply fixed_store_refl.
  - now apply fixed_store_emit.
Qed.

Lemma cudaMemcpy2D_fixed dst dpitch src spitch width height kind (w : World) :
  fixed_store w (snd (cudaMemcpy2D dst dpitch src spitch width height kind w)).
Proof.
  pose proof (cudaMemcpy2D_trace dst dpitch src spitch width height kind w) as Ht.
  assert (Hs : dev_live (snd (cudaMemcpy2D dst dpitch src spitch width height kind w))
               = dev_live w
               /\ blocks (snd (cudaMemcpy2D dst dpitch src spitch width height kind w))
                  = blocks w).
  { destruct kind.
    - now destruct (cudaMemcpy2D_to_device dst dpitch src spitch width height w) as (_ & ? & ?).
    - now destruct (cudaMemcpy2D_to_host dst dpitch src spitch width height w) as (_ & ? & ?). }
  destruct Hs as [Hl Hb]. split; [exact Hl|]. split; [exact Hb|].
  eexists [_]. split; [exact Ht|reflexivity].
Qed.

Section TransferFrames.

Context {rt : CudaRuntime}.

Lemma allocate_frame (this : GPUImage) (w : World) :
  exists fr, mem_frame w (snd (allocate this w)) fr.
Proof.
  unfold allocate, bind, cudaMallocPitch. cbn [dev_live emit].
  set (ev := EvMallocPitch (row_bytes this) (to_size_t (__height this))).
  set (r := cudaMallocPitch_rt _ _ _).
  set (w1 := snd (match r with
                  | MallocOk p q =>
                      (MallocOk p q,
                       if p =? 0 then emit ev w
                       else set_dev_live (p :: dev_live w) (emit ev w))
                  | MallocFail e => (MallocFail e, emit ev w)
                  end)).
  assert (Hw1 : mem_frame w w1 [ev] /\ blocks w1 = blocks w).
  { subst w1. destruct r as [p q|e]; [destruct (p =? 0)|]; now repeat split. }
  destruct Hw1 as [Hf1 Hb1].
  destruct r as [p q|e]; cbn [snd] in w1; fold w1.
  - unfold shared_ptr_make. set (w2 := set_blocks _ w1).
    assert (Hf2 : mem_frame w1 w2 []) by now repeat split.
    destruct (shared_ptr_release_frame (__ptr_dev this) w2) as (fr & Hf3 & _).
    destruct (shared_ptr_release (__ptr_dev this) w2) as [[] w3]. cbn [snd] in Hf3.
    cbn [cudaError_eqb ret snd].
    eexists. exact (mem_frame_trans _ _ _ _ _ Hf1 (mem_frame_trans _ _ _ _ _ Hf2 Hf3)).
  - unfold shared_ptr_make. set (w2 := set_blocks _ w1).
    assert (Hf2 : mem_frame w1 w2 []) by now repeat split.
    destruct (shared_ptr_release_frame (__ptr_dev this) w2) as (fr & Hf3 & _).
    destruct (shared_ptr_release (__ptr_dev this) w2) as [[] w3]. cbn [snd] in Hf3.
    pose proof (mem_frame_trans _ _ _ _ _ Hf1 (mem_frame_trans _ _ _ _ _ Hf2 Hf3)) as Hf.
    destruct (cudaError_eqb e cudaSuccess); cbn [ret snd].
    + eexists. exact Hf.
    + eexists. unfold cerr, modify. cbn [snd].
      refine (mem_frame_trans _ _ _ _ [_] Hf _). now repeat split.
Qed.

(** X7: an upload never writes host memory and a download never writes
    device memory, whatever the buffer, the host image and the outcome
    (allocation failure, shape mismatch, rejected copy included); a
    download also leaves the allocator and the control blocks as they
    were. *)
Theorem transfers_are_one_way (this : GPUImage) (img : image_t) (w : World) :
  host_mem (snd (upload this img w)) = host_mem w
  /\ dev_mem (snd (download this img w)) = dev_mem w
  /\ dev_live (snd (download this img w)) = dev_live w
  /\ blocks (snd (download this img w)) = blocks w.
Proof.
  split.
  - unfold upload, bind.
    set (first := if unallocated this then _ else _).
    assert (Hfirst : host_mem (snd (first w)) = host_mem w).
    { subst first. destruct (unallocated this); [|reflexivity].
      destruct (allocate_frame
                  (set_shape (height img) (width img) (depth img) (itemSize img) this) w)
        as (fr & Hh & _). exact Hh. }
    destruct (first w) as [b w1]. cbn [snd] in Hfirst.
    destruct (compareShape b img); [|exact Hfirst].
    destruct (cudaMemcpy2D_to_device (get (__ptr_dev b)) (__pitch b) (data img)
                (to_size_t (pitch img)) (row_bytes b) (to_size_t (__height b)) w1)
      as (Hh & _).
    destruct (cudaMemcpy2D _ _ _ _ _ _ _ w1) as [e w2]. cbn [snd] in Hh.
    destruct (checkError_frame e w2) as (diag & (Hh3 & _) & _).
    destruct (checkError e w2) as [[] w3]. cbn [snd ret] in *. congruence.
  - unfold download.
    destruct (unallocated this); [now repeat split|].
    destruct (compareShape this img); [|now repeat split].
    unfold bind.
    destruct (cudaMemcpy2D_to_host (data img) (to_size_t (pitch img))
                (get (__ptr_dev this)) (__pitch this) (row_bytes this)
                (to_size_t (__height this)) w) as (Hd & Hl & Hb).
    destruct (cudaMemcpy2D _ _ _ _ _ _ _ w) as [e w2]. cbn [snd] in Hd, Hl, Hb.
    destruct (checkError_frame e w2) as (diag & (_ & Hd3 & Hl3 & Hb3 & _) & _).
    repeat split; congruence.
Qed.

Lemma upload_allocated_fixed (this : GPUImage) (img : image_t) (w : World) :
  unallocated this = false ->
  fst (upload this img w) = this /\ fixed_store w (snd (upload this img w)).
Proof.
  intros Ha. destruct (compareShape this img) eqn:Hs.
  - rewrite (upload_allocated_match _ _ _ Ha Hs).
    pose proof (cudaMemcpy2D_fixed (get (__ptr_dev this)) (__pitch this) (data img)
                  (to_size_t (pitch img)) (row_bytes this) (to_size_t (__height this))
                  cudaMemcpyHostToDevice w) as Hf.
    destruct (cudaMemcpy2D _ _ _ _ _ _ _ w) as [e w1]. cbn [fst snd] in *.
    split; [reflexivity|].
    exact (fixed_store_trans _ _ _ Hf (checkError_fixed e w1)).
  - rewrite (upload_mismatch _ _ _ Ha Hs). split; [reflexivity|].
    now apply fixed_store_emit.
Qed.

Lemma download_fixed (this : GPUImage) (img : image_t) (w : World) :
  fixed_store w (snd (download this img w)).
Proof.
  unfold download.
  destruct (unallocated this); [now apply fixed_store_emit|].
  destruct (compareShape this img); [|now apply fixed_store_emit].
  unfold bind.
  pose proof (cudaMemcpy2D_fixed (data img) (to_size_t (pitch img))
                (get (__ptr_dev this)) (__pitch this) (row_bytes this)
                (to_size_t (__height this)) cudaMemcpyDeviceToHost w) as Hf.
  destruct (cudaMemcpy2D _ _ _ _ _ _ _ w) as [e w1]. cbn [snd] in Hf.
  exact (fixed_store_trans _ _ _ Hf (checkError_fixed e w1)).
Qed.

Lemma run_ops_allocated (this : GPUImage) (ops : list BufferOp) (w : World) :
  unallocated this = false ->
  fst (run_ops this ops w) = this /\ fixed_store w (snd (run_ops this ops w)).
Proof.
  intros Ha. revert w. induction ops as [|o rest IH]; intros w.
  - split; [reflexivity|apply fixed_store_refl].
  - simpl. unfold bind.
    assert (Hop : fst (apply_op this o w) = this
                  /\ fixed_store w (snd (apply_op this o w))).
    { destruct o as [img|img].
      - now apply upload_allocated_fixed.
      - unfold apply_op, bind. pose proof (download_fixed this img w) as Hf.
        destruct (download this img w) as [[] w1]. now split. }
    destruct (apply_op this o w) as [b w1]. cbn [fst snd] in Hop.
    destruct Hop as [-> Hf1]. destruct (IH w1) as [E Hf2].
    split; [exact E|exact (fixed_store_trans _ _ _ Hf1 Hf2)].
Qed.

(** X8: once a buffer is allocated, no sequence of uploads and downloads
    changes its shape, its pitch or its device pointer, whatever the host
    images are; over the whole sequence the runtime is asked for no
    allocation and no release, and the allocator and the control blocks
    stay as they were. *)
Theorem allocated_buffer_is_fixed (this : GPUImage) (ops : list BufferOp) (w : World) :
  unallocated this = false ->
  fst (run_ops this ops w) = this
  /\ dev_live (snd (run_ops this ops w)) = dev_live w
  /\ blocks (snd (run_ops this ops w)) = blocks w
  /\ List.filter is_malloc_or_free (new_events w (snd (run_ops this ops w))) = [].
Proof.
  intros Ha. destruct (run_ops_allocated this ops w Ha) as (E & Hl & Hb & fr & Ht & Hfr).
  split; [exact E|]. split; [exact Hl|]. split; [exact Hb|].
  now rewrite (new_events_app fr) by exact Ht.
Qed.

End TransferFrames.

(** ** Uploads on the device side *)

Section DeviceSide.

Context {rt : CudaRuntime}.

Variable this : GPUImage.

Hypothesis Halloc : unallocated this = false.
Hypothesis Hpitch : row_bytes this <= __pitch this.

(** X9: an upload of a valid host image of the buffer's shape writes
    device memory only in the [height] rows of [width*depth*itemSize] bytes
    that start [pitch] bytes apart at the device pointer: the padding of
    every row, and every byte outside the pitched allocation, keep their
    value. *)
Theorem upload_stays_in_allocation (img : image_t) (w : World) :
  compareShape this img = true ->
  valid_image img ->
  let w1 := snd (upload this img w) in
  let row := width img * depth img * itemSize img in
  (forall a,
     (forall r c, 0 <= r < height img -> 0 <= c < row ->
        a <> GPUImage_data this + r * __pitch this + c) ->
     dev_mem w1 a = dev_mem w a)
  /\ (forall a, ~ in_allocation this a -> dev_mem w1 a = dev_mem w a).
Proof.
  intros Hs Hv w1 row. subst w1.
  rewrite (upload_valid this Halloc Hpitch img w Hs Hv).
  cbn [snd dev_mem set_dev_mem emit]. fold row.
  assert (Hrow : row <= __pitch this).
  { destruct (valid_image_sizes this img Hs Hv) as (Er & _ & _). subst row. lia. }
  assert (Hout : forall a,
            (forall r c, 0 <= r < height img -> 0 <= c < row ->
               a <> GPUImage_data this + r * __pitch this + c) ->
            copy_rows (Z.to_nat (height img)) (host_mem w) (data img) (pitch img)
              (get (__ptr_dev this)) (__pitch this) row (dev_mem w) a = dev_mem w a).
  { intros a Ha. apply copy_rows_outside. intros r Hr [H1 H2].
    apply (Ha (Z.of_nat r) (a - (get (__ptr_dev this) + Z.of_nat r * __pitch this))).
    - lia.
    - lia.
    - unfold GPUImage_data. lia. }
  split; [exact Hout|].
  intros a Ha. apply Hout. intros r c Hr Hc ->. apply Ha.
  unfold in_allocation.
  apply compareShape_true in Hs. destruct Hs as (Eh & _).
  destruct Hv as (Hh & Hw & Hd & Hi & _).
  assert (0 < row) by (subst row; nia).
  rewrite Eh. nia.
Qed.

(** X10: of two uploads of valid host images of the buffer's shape the
    later one wins: afterwards every pixel byte of the device buffer holds
    the byte of the second image at the same row and column (as host
    memory had it before the uploads, which do not change it). *)
Theorem later_upload_wins (img1 img2 : image_t) (w : World) :
  compareShape this img1 = true -> valid_image img1 ->
  compareShape this img2 = true -> valid_image img2 ->
  let w1 := snd (upload this img1 w) in
  let w2 := snd (upload this img2 w1) in
  forall r c, 0 <= r < height img2 ->
    0 <= c < width img2 * depth img2 * itemSize img2 ->
    dev_mem w2 (GPUImage_data this + r * __pitch this + c)
    = host_mem w (pixel_addr img2 r c).
Proof.
  intros Hs1 Hv1 Hs2 Hv2 w1 w2 r c Hr Hc. subst w1 w2.
  rewrite (upload_valid this Halloc Hpitch img1 w Hs1 Hv1). cbn [snd].
  rewrite (upload_valid this Halloc Hpitch img2 _ Hs2 Hv2).
  cbn [snd dev_mem host_mem set_dev_mem emit]. unfold GPUImage_data, pixel_addr.
  assert (Hrow : width img2 * depth img2 * itemSize img2 <= __pitch this).
  { destruct (valid_image_sizes this img2 Hs2 Hv2) as (Er & _ & _). lia. }
  rewrite <- (Z2Nat.id r) by lia.
  apply copy_rows_inside; lia.
Qed.

End DeviceSide.

(** ** Allocation failures and the life of an allocation *)

Lemma remove_ptr_not_live (p : Z) (l : list Z) :
  is_live p l = false -> remove_ptr p l = l.
Proof.
  unfold is_live, remove_ptr. induction l as [|x l IH]; [reflexivity|].
  simpl. intros H. apply orb_false_iff in H. destruct H as [E1 E2].
  rewrite E1. simpl. f_equal. now apply IH.
Qed.

Section AllocationLife.

Context {rt : CudaRuntime}.

(** X11: when the allocation fails inside an upload into an unallocated
    buffer, the upload does not stop: the buffer has adopted the image's
    shape, stays unallocated with its pitch as before, and the copy is
    still handed to the runtime, with a null device pointer as
    destination. *)
Theorem upload_copies_after_failed_allocation (this : GPUImage) (img : image_t)
    (w : World) (e : cudaError_t) :
  unallocated this = true ->
  let adopted := set_shape (height img) (width img) (depth img) (itemSize img) this in
  cudaMallocPitch_rt (dev_live w) (row_bytes adopted) (to_size_t (height img))
    = MallocFail e ->
  let b := fst (upload this img w) in
  let w' := snd (upload this img w) in
  (__height b, __width b, __depth b, __itemSize b)
    = (height img, width img, depth img, itemSize img)
  /\ unallocated b = true /\ __pitch b = __pitch this
  /\ List.filter is_malloc (new_events w w')
     = [EvMallocPitch (row_bytes adopted) (to_size_t (height img))]
  /\ List.filter is_memcpy (new_events w w')
     = [EvMemcpy2D 0 (__pitch this) (data img) (to_size_t (pitch img))
          (row_bytes adopted) (to_size_t (height img)) cudaMemcpyHostToDevice].
Proof.
  intros Hu adopted Hrt b w'.
  assert (Hup : exists w1 ev,
            upload this img w
            = (set_allocation (__pitch this)
                 {| get := 0; ctrl := Some (length (blocks w)) |} adopted, w1)
            /\ trace w1 = ev ++ trace w
            /\ List.filter is_malloc ev
               = [EvMallocPitch (row_bytes adopted) (to_size_t (height img))]
            /\ List.filter is_memcpy ev
               = [EvMemcpy2D 0 (__pitch this) (data img) (to_size_t (pitch img))
                    (row_bytes adopted) (to_size_t (height img))
                    cudaMemcpyHostToDevice]).
  { unfold upload. unfold bind at 1. rewrite Hu. fold adopted.
    pose proof (allocate_fail adopted w e Hrt) as Eb.
    assert (Hal : exists ev0, trace (snd (allocate adopted w)) = ev0 ++ trace w
                   /\ List.filter is_malloc ev0
                      = [EvMallocPitch (row_bytes adopted) (to_size_t (height img))]
                   /\ List.filter is_memcpy ev0 = []).
    { unfold allocate, bind, cudaMallocPitch. cbn [dev_live emit].
      change (__height adopted) with (height img) in *. rewrite Hrt.
      unfold shared_ptr_make.
      set (w2 := set_blocks _ _).
      destruct (shared_ptr_release_frame (__ptr_dev adopted) w2) as (fr & (_ & _ & Ht) & Hfr).
      destruct (shared_ptr_release (__ptr_dev adopted) w2) as [[] w3]. cbn [snd] in Ht.
      subst w2. cbn [trace set_blocks emit] in Ht.
      destruct (cudaError_eqb e cudaSuccess); cbn [ret snd cerr modify trace emit].
      - exists (fr ++ [EvMallocPitch (row_bytes adopted) (to_size_t (height img))]).
        split; [now rewrite Ht, <- List.app_assoc|].
        rewrite !List.filter_app. destruct Hfr as [->|[q ->]]; now split.
      - exists (EvCerr ("ERROR: GPUImage device memory allocation: "
                        ++ cudaGetErrorString e)
                :: fr ++ [EvMallocPitch (row_bytes adopted) (to_size_t (height img))]).
        split; [rewrite Ht; cbn [app]; now rewrite <- List.app_assoc|].
        cbn [List.filter is_malloc is_memcpy].
        rewrite !List.filter_app. destruct Hfr as [->|[q ->]]; now split. }
    destruct Hal as (ev0 & Ht0 & Hm0 & Hc0).
    destruct (allocate adopted w) as [b1 w1]. cbn [fst snd] in Eb, Ht0. subst b1.
    replace (compareShape _ img) with true
      by (symmetry; apply compareShape_true; now cbn).
    unfold bind.
    pose proof (cudaMemcpy2D_trace 0 (__pitch this) (data img) (to_size_t (pitch img))
                  (row_bytes adopted) (to_size_t (height img))
                  cudaMemcpyHostToDevice w1) as Htm.
    cbn [set_allocation __ptr_dev get __pitch __height adopted set_shape].
    change (row_bytes (set_allocation (__pitch this)
              {| get := 0; ctrl := Some (length (blocks w)) |} adopted))
      with (row_bytes adopted).
    destruct (cudaMemcpy2D _ _ _ _ _ _ _ w1) as [e1 w2]. cbn [snd] in Htm.
    destruct (checkError_extends e1 w2) as (diag & Hd1 & Hd2).
    assert (Hdm : List.filter is_malloc diag = []).
    { revert Hd1. unfold checkError. destruct (cudaError_eqb e1 cudaSuccess).
      - cbn. intros Hd1. destruct diag; [reflexivity|].
        apply (f_equal (@length Event)) in Hd1. rewrite length_app in Hd1. cbn in Hd1. lia.
      - cbn. intros Hd1. destruct diag as [|x [|y diag]].
        + apply (f_equal (@length Event)) in Hd1. cbn in Hd1. lia.
        + injection Hd1 as <-. reflexivity.
        + apply (f_equal (@length Event)) in Hd1. rewrite length_app in Hd1.
          cbn in Hd1. lia. }
    destruct (checkError e1 w2) as [[] w3]. cbn [snd ret] in *.
    eexists w3, (diag ++ _ :: ev0). split; [reflexivity|].
    split; [now rewrite Hd1, Htm, Ht0, <- List.app_assoc|].
    rewrite !List.filter_app. cbn [List.filter is_malloc is_memcpy].
    now rewrite Hdm, Hd2, Hm0, Hc0. }
  destruct Hup as (w1 & ev & E & Ht & Hm & Hc).
  subst b w'. rewrite E. cbn [fst snd].
  split; [reflexivity|]. split; [reflexivity|]. split; [reflexivity|].
  now rewrite (new_events_app ev) by exact Ht.
Qed.

Lemma GPUImage_ctor_shape_ok (raw_pitch h wd d s : Z) (w : World) (p q : Z) :
  let row := to_size_t (int_mul (int_mul wd d) s) in
  cudaMallocPitch_rt (dev_live w) row (to_size_t h) = MallocOk p q ->
  p <> 0 ->
  GPUImage_ctor_shape raw_pitch h wd d s w
  = ({| __height := h; __width := wd; __depth := d; __pitch := q; __itemSize := s;
        __ptr_dev := {| get := p; ctrl := Some (length (blocks w)) |} |},
     set_blocks (blocks w ++ [(p, 1%nat)])
       (set_dev_live (p :: dev_live w) (emit (EvMallocPitch row (to_size_t h)) w))).
Proof.
  intros row Hrt Hp. unfold GPUImage_ctor_shape, allocate, bind, cudaMallocPitch.
  cbn [dev_live emit __height]. unfold row_bytes. cbn [__width __depth __itemSize].
  fold row. rewrite Hrt. apply Z.eqb_neq in Hp. rewrite Hp.
  reflexivity.
Qed.

Lemma GPUImage_ctor_shape_fail (raw_pitch h wd d s : Z) (w : World) (e : cudaError_t) :
  let row := to_size_t (int_mul (int_mul wd d) s) in
  cudaMallocPitch_rt (dev_live w) row (to_size_t h) = MallocFail e ->
  e <> cudaSuccess ->
  GPUImage_ctor_shape raw_pitch h wd d s w
  = ({| __height := h; __width := wd; __depth := d; __pitch := raw_pitch;
        __itemSize := s;
        __ptr_dev := {| get := 0; ctrl := Some (length (blocks w)) |} |},
     emit (EvCerr ("ERROR: GPUImage device memory allocation: "
                   ++ cudaGetErrorString e))
       (set_blocks (blocks w ++ [(0, 1%nat)])
          (emit (EvMallocPitch row (to_size_t h)) w))).
Proof.
  intros row Hrt He. unfold GPUImage_ctor_shape, allocate, bind, cudaMallocPitch.
  cbn [dev_live emit __height]. unfold row_bytes. cbn [__width __depth __itemSize].
  fold row. rewrite Hrt.
  cbn [shared_ptr_make shared_ptr_release shared_ptr_empty ctrl ret __ptr_dev].
  now rewrite (cudaError_eqb_neq e He).
Qed.

(** X12: the life of an allocation.  A buffer constructed with a shape,
    whose allocation succeeds with a fresh non-null pointer, then used for
    any sequence of uploads and downloads, then destroyed: the buffer value
    never changes, the allocation is live until the destruction, the
    runtime sees exactly one [cudaMallocPitch] and, at the end, one
    [cudaFree] of that pointer, and the allocator is back to what it was
    before the construction. *)
Theorem allocation_life_cycle (raw_pitch h wd d s : Z) (ops : list BufferOp)
    (w : World) (p q : Z) :
  let row := to_size_t (int_mul (int_mul wd d) s) in
  cudaMallocPitch_rt (dev_live w) row (to_size_t h) = MallocOk p q ->
  p <> 0 ->
  is_live p (dev_live w) = false ->
  let b := fst (GPUImage_ctor_shape raw_pitch h wd d s w) in
  let w1 := snd (GPUImage_ctor_shape raw_pitch h wd d s w) in
  let w2 := snd (run_ops b ops w1) in
  let w3 := snd (GPUImage_dtor b w2) in
  GPUImage_data b = p /\ __pitch b = q
  /\ fst (run_ops b ops w1) = b
  /\ is_live p (dev_live w2) = true
  /\ List.filter is_malloc_or_free (new_events w w3)
     = [EvFree p; EvMallocPitch row (to_size_t h)]
  /\ dev_live w3 = dev_live w
  /\ use_count (__ptr_dev b) w3 = 0%nat.
Proof.
  intros row Hrt Hp Hfresh b w1 w2 w3.
  pose proof (GPUImage_ctor_shape_ok raw_pitch h wd d s w p q Hrt Hp) as E.
  fold row in E.
  assert (Eb : b = fst (GPUImage_ctor_shape raw_pitch h wd d s w)) by reflexivity.
  assert (Ew1 : w1 = snd (GPUImage_ctor_shape raw_pitch h wd d s w)) by reflexivity.
  rewrite E in Eb, Ew1. cbn [fst snd] in Eb, Ew1. clearbody b w1.
  assert (Hab : unallocated b = false) by (subst b; cbn; now apply Z.eqb_neq).
  destruct (run_ops_allocated b ops w1 Hab) as [Eops (Hl2 & Hb2 & fr & Ht2 & Hfr)].
  fold w2 in Hl2, Hb2, Ht2.
  assert (Hl1 : dev_live w1 = p :: dev_live w) by now subst w1.
  assert (Hb1 : blocks w1 = blocks w ++ [(p, 1%nat)]) by now subst w1.
  assert (Ht1 : trace w1 = EvMallocPitch row (to_size_t h) :: trace w) by now subst w1.
  assert (Hlk : blocks w2 !! length (blocks w) = Some (p, 1%nat))
    by (rewrite Hb2, Hb1; now rewrite list_lookup_middle).
  assert (Hc : ctrl (__ptr_dev b) = Some (length (blocks w))) by now subst b.
  destruct (shared_ptr_release_last (__ptr_dev b) w2 (length (blocks w)) p Hc Hlk)
    as (w' & Er & _ & _ & Hb3 & Ht3 & Hl3).
  assert (Ew3 : w3 = w') by (subst w3; unfold GPUImage_dtor; now rewrite Er).
  clearbody w3. subst w'.
  split; [now subst b|]. split; [now subst b|]. split; [exact Eops|].
  split; [rewrite Hl2, Hl1; cbn; now rewrite Z.eqb_refl|].
  split; [|split].
  - rewrite (new_events_app (EvFree p :: fr ++ [EvMallocPitch row (to_size_t h)])).
    + cbn [List.filter is_malloc_or_free]. now rewrite List.filter_app, Hfr.
    + rewrite Ht3, Ht2, Ht1. cbn. now rewrite <- List.app_assoc.
  - rewrite Hl3, Hl2, Hl1. apply Z.eqb_neq in Hp. rewrite Hp.
    unfold remove_ptr. cbn [List.filter]. rewrite Z.eqb_refl. cbn [negb].
    now apply remove_ptr_not_live.
  - unfold use_count. rewrite Hc, Hb3. rewrite list_lookup_insert_eq; [reflexivity|].
    exact (lookup_lt_Some _ _ _ Hlk).
Qed.

(** X13: a construction whose allocation fails reports the runtime's error
    string and gives a buffer with the requested shape, a null device
    pointer, and a pitch field that was never written (it keeps the value
    of the storage); destroying that buffer only releases the null pointer,
    and the allocator is untouched throughout. *)
Theorem failed_construction (raw_pitch h wd d s : Z) (w : World) (e : cudaError_t) :
  let row := to_size_t (int_mul (int_mul wd d) s) in
  cudaMallocPitch_rt (dev_live w) row (to_size_t h) = MallocFail e ->
  e <> cudaSuccess ->
  let b := fst (GPUImage_ctor_shape raw_pitch h wd d s w) in
  let w1 := snd (GPUImage_ctor_shape raw_pitch h wd d s w) in
  let w2 := snd (GPUImage_dtor b w1) in
  (GPUImage_height b, GPUImage_width b, GPUImage_depth b, GPUImage_itemSize b)
    = (h, wd, d, s)
  /\ GPUImage_data b = 0 /\ __pitch b = raw_pitch
  /\ new_events w w1
     = [EvCerr ("ERROR: GPUImage device memory allocation: " ++ cudaGetErrorString e);
        EvMallocPitch row (to_size_t h)]
  /\ new_events w1 w2 = [EvFree 0]
  /\ dev_live w2 = dev_live w.
Proof.
  intros row Hrt He b w1 w2.
  pose proof (GPUImage_ctor_shape_fail raw_pitch h wd d s w e Hrt He) as E.
  fold row in E.
  assert (Eb : b = fst (GPUImage_ctor_shape raw_pitch h wd d s w)) by reflexivity.
  assert (Ew1 : w1 = snd (GPUImage_ctor_shape raw_pitch h wd d s w)) by reflexivity.
  rewrite E in Eb, Ew1. cbn [fst snd] in Eb, Ew1. clearbody b w1.
  assert (Hc : ctrl (__ptr_dev b) = Some (length (blocks w))) by now subst b.
  assert (Hlk : blocks w1 !! length (blocks w) = Some (0, 1%nat))
    by (subst w1; cbn [blocks emit set_blocks]; now rewrite list_lookup_middle).
  destruct (shared_ptr_release_last (__ptr_dev b) w1 (length (blocks w)) 0 Hc Hlk)
    as (w' & Er & _ & _ & _ & Ht3 & Hl3).
  assert (Ew2 : w2 = w') by (subst w2; unfold GPUImage_dtor; now rewrite Er).
  clearbody w2. subst w'.
  split; [now subst b|]. split; [now subst b|]. split; [now subst b|].
  split; [apply new_events_app; now subst w1|].
  split; [now apply new_events_app|].
  rewrite Hl3. now subst w1.
Qed.

End AllocationLife.

(** ** The buffer held by a texture *)

Section HeldBuffer.

Variables (t : GPUTexture) (w : World) (i n : nat).

Hypothesis Hctrl : ctrl (__ptr_dev (__image t)) = Some i.
Hypothesis Hblock : blocks w !! i = Some (GPUImage_data (__image t), S n).

(** X14: [getImage] returns the held buffer itself (same shape, pitch,
    device pointer and control block) as one more owner of the allocation,
    without any runtime call; if the texture is destroyed afterwards the
    allocation is not released and the returned buffer keeps its owners:
    no [cudaFree] is issued and the allocator and device memory are
    unchanged. *)
Theorem getImage_shares_allocation :
  let B := fst (getImage t w) in
  let w1 := snd (getImage t w) in
  let w2 := snd (GPUTexture_dtor t w1) in
  B = __image t
  /\ new_events w w1 = []
  /\ use_count (__ptr_dev B) w1 = S (S n)
  /\ use_count (__ptr_dev B) w2 = S n
  /\ List.filter is_malloc_or_free (new_events w1 w2) = []
  /\ dev_live w2 = dev_live w /\ dev_mem w2 = dev_mem w.
Proof.
  intros B w1 w2.
  pose proof (lookup_lt_Some _ _ _ Hblock) as Hi.
  assert (E : getImage t w
              = (__image t,
                 set_blocks (<[i := (GPUImage_data (__image t), S (S n))]> (blocks w)) w)).
  { unfold getImage, GPUImage_copy, bind.
    rewrite (shared_ptr_copy_at _ _ _ _ _ Hctrl Hblock).
    unfold ret. now rewrite set_allocation_same. }
  assert (EB : B = __image t) by (subst B; now rewrite E).
  assert (Ew1 : w1 = set_blocks (<[i := (GPUImage_data (__image t), S (S n))]> (blocks w)) w)
    by (subst w1; now rewrite E).
  clearbody B w1.
  assert (E2 : exists d,
             w2 = set_blocks (<[i := (GPUImage_data (__image t), S n)]> (blocks w1))
                    (if __validTexture t
                     then emit (EvDestroyTextureObject (__texture t)) w1 else w1)
             /\ d = (if __validTexture t
                     then [EvDestroyTextureObject (__texture t)] else [])).
  { eexists. split; [|reflexivity]. subst w2. unfold GPUTexture_dtor, bind.
    destruct (__validTexture t).
    - cbn [cudaDestroyTextureObject checkError cudaError_eqb ret]. unfold GPUImage_dtor.
      rewrite (shared_ptr_release_shared _ _ i (GPUImage_data (__image t)) n Hctrl);
        [reflexivity|].
      subst w1. cbn [blocks emit set_blocks]. now apply list_lookup_insert_eq.
    - cbn [ret]. unfold GPUImage_dtor.
      rewrite (shared_ptr_release_shared _ _ i (GPUImage_data (__image t)) n Hctrl);
        [reflexivity|].
      subst w1. cbn [blocks set_blocks]. now apply list_lookup_insert_eq. }
  destruct E2 as (d & Ew2 & Ed). clearbody w2.
  split; [exact EB|].
  split; [subst w1; now apply (new_events_app [])|].
  split; [subst B w1; unfold use_count; rewrite Hctrl; cbn [blocks set_blocks];
          now rewrite list_lookup_insert_eq|].
  split.
  { subst B w2. unfold use_count. rewrite Hctrl. cbn [blocks set_blocks].
    rewrite list_lookup_insert_eq; [reflexivity|].
    subst w1. cbn [blocks set_blocks]. now rewrite length_insert. }
  split.
  { rewrite (new_events_app d).
    - subst d. now destruct (__validTexture t).
    - subst w2 d. now destruct (__validTexture t). }
  subst w2 w1. now destruct (__validTexture t).
Qed.

End HeldBuffer.

(** ** The image wrapper of the demo *)

(** X15: [wrapCVMat] over a non-empty matrix header whose row size fits an
    [int] yields a valid host image of the matrix's shape (rows, cols,
    channels, bytes per channel) over the matrix's data pointer, with a
    tight pitch: exactly width*depth*itemSize, whatever the image held
    before. *)
Theorem wrapCVMat_tight (m : Mat) (img0 : image_t) :
  0 < rows m <= INT_MAX ->
  0 < cols m -> 0 < channels m -> 0 < elemSize1 m ->
  cols m * channels m * elemSize1 m <= INT_MAX ->
  ptr m <> 0 ->
  let img := wrapCVMat m img0 in
  valid_image img
  /\ pitch img = width img * depth img * itemSize img
  /\ (height img, width img, depth img, itemSize img)
     = (rows m, cols m, channels m, elemSize1 m)
  /\ data img = ptr m.
Proof.
  intros Hr Hc Hn He Hrow Hp img. unfold INT_MAX in Hr, Hrow.
  assert (Hce : 0 < channels m * elemSize1 m <= 2147483647) by nia.
  assert (He1 : elemSize1 m <= 2147483647) by nia.
  assert (Hc1 : cols m <= 2147483647) by nia.
  assert (Epitch : pitch img = cols m * channels m * elemSize1 m).
  { subst img. cbn [pitch wrapCVMat]. unfold elemSize.
    rewrite (to_size_t_small (cols m)) by lia.
    rewrite (to_size_t_small (channels m * elemSize1 m)) by lia.
    rewrite to_size_t_small by nia.
    rewrite wrap_int_small by (unfold is_int, INT_MIN, INT_MAX; nia). ring. }
  assert (Eitem : itemSize img = elemSize1 m).
  { subst img. cbn [itemSize wrapCVMat]. rewrite to_size_t_small by lia.
    apply wrap_int_small. unfold is_int, INT_MIN, INT_MAX. lia. }
  split; [|split; [|split]].
  - unfold valid_image, INT_MAX. rewrite Epitch, Eitem.
    subst img. cbn [height width depth data wrapCVMat]. repeat split; lia.
  - rewrite Epitch, Eitem. now subst img.
  - rewrite Eitem. now subst img.
  - now subst img.
Qed.

(** ** Downloads on the host side *)

Lemma copy_rows_written_or_kept (rows : nat) (from : Mem)
    (src spitch dst dpitch width : Z) (m m' : Mem) (a : Z) :
  copy_rows rows from src spitch dst dpitch width m a
  = copy_rows rows from src spitch dst dpitch width m' a
  \/ (copy_rows rows from src spitch dst dpitch width m a = m a
      /\ copy_rows rows from src spitch dst dpitch width m' a = m' a).
Proof.
  induction rows as [|k IH]; [now right|].
  simpl. unfold copy_row.
  destruct ((dst + Z.of_nat k * dpitch <=? a) && (a <? dst + Z.of_nat k * dpitch + width)).
  - now left.
  - exact IH.
Qed.

Section HostSide.

Context {rt : CudaRuntime}.

Variable this : GPUImage.

Hypothesis Halloc : unallocated this = false.
Hypothesis Hpitch : row_bytes this <= __pitch this.

(** X16: a download into a valid host image of the buffer's shape puts in
    every pixel byte of the image the device byte of the same row and
    column, leaves every host byte outside the image's rows as it was, and
    does not consume the data: a second download into the same image
    leaves host memory exactly as the first one did. *)
Theorem download_reads_device (img : image_t) (w : World) :
  compareShape this img = true ->
  valid_image img ->
  let w1 := snd (download this img w) in
  let w2 := snd (download this img w1) in
  (forall r c, 0 <= r < height img ->
     0 <= c < width img * depth img * itemSize img ->
     host_mem w1 (pixel_addr img r c)
     = dev_mem w (GPUImage_data this + r * __pitch this + c))
  /\ (forall a, ~ in_image img a -> host_mem w1 a = host_mem w a)
  /\ (forall a, host_mem w2 a = host_mem w1 a).
Proof.
  intros Hs Hv w1 w2. subst w1 w2.
  rewrite (download_valid this Halloc Hpitch img w Hs Hv). cbn [snd].
  rewrite (download_valid this Halloc Hpitch img _ Hs Hv).
  cbn [snd host_mem dev_mem set_host_mem emit].
  set (row := width img * depth img * itemSize img).
  set (n := Z.to_nat (height img)).
  destruct Hv as (Hh & _ & _ & _ & Hp & _). fold row in Hp.
  assert (Hin : forall (m : Mem) r c, 0 <= r < height img -> 0 <= c < row ->
            copy_rows n (dev_mem w) (get (__ptr_dev this)) (__pitch this)
              (data img) (pitch img) row m (pixel_addr img r c)
            = dev_mem w (GPUImage_data this + r * __pitch this + c)).
  { intros m r c Hr Hc. unfold pixel_addr, GPUImage_data.
    rewrite <- (Z2Nat.id r) by lia. apply copy_rows_inside; subst n; lia. }
  assert (Hout : forall (m : Mem) a, ~ in_image img a ->
            copy_rows n (dev_mem w) (get (__ptr_dev this)) (__pitch this)
              (data img) (pitch img) row m a = m a).
  { intros m a Ha. apply copy_rows_outside. intros r Hr [H1 H2]. apply Ha.
    exists (Z.of_nat r), (a - (data img + Z.of_nat r * pitch img)).
    fold row. unfold pixel_addr. subst n. repeat split; lia. }
  split; [intros r c Hr Hc; now apply Hin|].
  split; [intros a Ha; now apply Hout|].
  intros a.
  destruct (copy_rows_written_or_kept n (dev_mem w) (get (__ptr_dev this)) (__pitch this)
              (data img) (pitch img) row
              (copy_rows n (dev_mem w) (get (__ptr_dev this)) (__pitch this)
                 (data img) (pitch img) row (host_mem w))
              (host_mem w) a) as [E|[E _]]; exact E.
Qed.

End HostSide.

(** ** One buffer, one allocation *)

Lemma frees_only_null_app (f1 f2 : list Event) :
  frees_only_null f1 -> frees_only_null f2 -> frees_only_null (f1 ++ f2).
Proof. intros H1 H2 q Hq. now rewrite List.filter_app, H1, H2. Qed.

Lemma frees_only_null_fixed (fr : list Event) :
  List.filter is_malloc_or_free fr = [] -> frees_only_null fr.
Proof.
  intros H q Hq. induction fr as [|e fr IH]; [reflexivity|].
  cbn in H |- *. destruct e; cbn in H |- *; try discriminate H; now apply IH.
Qed.

Lemma owns_since_fixed (w0 : World) (b : GPUImage) (w w' : World) :
  owns_since w0 b w -> fixed_store w w' -> owns_since w0 b w'.
Proof.
  intros ((i & Hc & Hb) & Hl & fr & Ht & Hfr) (Hl' & Hb' & fr' & Ht' & Hfr').
  split; [exists i; now rewrite Hb'|].
  split; [now rewrite Hl'|].
  exists (fr' ++ fr). split; [now rewrite Ht', Ht, List.app_assoc|].
  apply frees_only_null_app; [now apply frees_only_null_fixed|exact Hfr].
Qed.

Section OneAllocation.

Context {rt : CudaRuntime}.

(** [allocate] on a buffer that owns nothing, or only a null pointer. *)
Lemma allocate_owns (this : GPUImage) (w : World) :
  ctrl (__ptr_dev this) = None
  \/ (exists i, ctrl (__ptr_dev this) = Some i /\ blocks w !! i = Some (0, 1%nat)) ->
  owns_since w (fst (allocate this w)) (snd (allocate this w)).
Proof.
  intros Hold.
  unfold allocate, bind, cudaMallocPitch. cbn [dev_live emit].
  set (ev := EvMallocPitch (row_bytes this) (to_size_t (__height this))).
  assert (Hassign : forall (buf : Z) (w1 : World),
            blocks w1 = blocks w ->
            let r := (shared_ptr_release (__ptr_dev this)
                        (set_blocks (blocks w1 ++ [(buf, 1%nat)]) w1)) in
            blocks (snd r) !! length (blocks w1) = Some (buf, 1%nat)
            /\ dev_live (snd r) = dev_live w1
            /\ exists fr, trace (snd r) = fr ++ trace w1 /\ frees_only_null fr).
  { intros buf w1 Hb1 r. subst r. destruct Hold as [Hn|(i & Hc & Hl)].
    - unfold shared_ptr_release. rewrite Hn. cbn [ret snd blocks set_blocks dev_live trace].
      split; [now rewrite list_lookup_middle|]. split; [reflexivity|].
      exists []. split; [reflexivity|]. now intros q Hq.
    - pose proof (lookup_lt_Some _ _ _ Hl) as Hi.
      destruct (shared_ptr_release_last (__ptr_dev this)
                  (set_blocks (blocks w1 ++ [(buf, 1%nat)]) w1) i 0 Hc)
        as (w' & -> & _ & _ & Hb & Ht & Hv).
      { cbn [blocks set_blocks]. rewrite Hb1. now apply lookup_app_l_Some. }
      cbn [snd]. cbn [blocks set_blocks dev_live trace] in Hb, Ht, Hv.
      split; [|split; [exact Hv|]].
      + rewrite Hb, list_lookup_insert_ne by (rewrite Hb1; lia).
        now rewrite list_lookup_middle.
      + exists [EvFree 0]. split; [exact Ht|].
        intros q Hq. cbn [List.filter is_free_of].
        now replace (0 =? q) with false by (symmetry; apply Z.eqb_neq; lia). }
  destruct (cudaMallocPitch_rt (dev_live w) (row_bytes this) (to_size_t (__height this)))
    as [p q|e].
  - unfold shared_ptr_make.
    set (w1 := if p =? 0 then emit ev w else set_dev_live (p :: dev_live w) (emit ev w)).
    assert (Hb1 : blocks w1 = blocks w) by (subst w1; now destruct (p =? 0)).
    assert (Hl1 : dev_live w1 = if p =? 0 then dev_live w else p :: dev_live w)
      by (subst w1; now destruct (p =? 0)).
    assert (Ht1 : trace w1 = [ev] ++ trace w) by (subst w1; now destruct (p =? 0)).
    destruct (Hassign p w1 Hb1) as (Hlk & Hdl & fr & Ht & Hfr).
    destruct (shared_ptr_release _ _) as [[] w3]. cbn [snd] in Hlk, Hdl, Ht.
    cbn [cudaError_eqb ret fst snd].
    split; [|split].
    + exists (length (blocks w1)). now split.
    + cbn [unallocated set_allocation __ptr_dev get GPUImage_data].
      now rewrite Hdl, Hl1.
    + exists (fr ++ [ev]). split; [now rewrite Ht, Ht1, List.app_assoc|].
      apply frees_only_null_app; [exact Hfr|]. now intros q' Hq'.
  - unfold shared_ptr_make.
    set (w1 := emit ev w).
    destruct (Hassign 0 w1 eq_refl) as (Hlk & Hdl & fr & Ht & Hfr).
    destruct (shared_ptr_release _ _) as [[] w3]. cbn [snd] in Hlk, Hdl, Ht.
    destruct (cudaError_eqb e cudaSuccess); cbn [ret cerr modify fst snd].
    + split; [|split].
      * exists (length (blocks w1)). now split.
      * cbn [unallocated set_allocation __ptr_dev get GPUImage_data]. now rewrite Hdl.
      * exists (fr ++ [ev]). split; [now rewrite Ht, <- List.app_assoc|].
        apply frees_only_null_app; [exact Hfr|]. now intros q' Hq'.
    + split; [|split].
      * exists (length (blocks w1)). now split.
      * cbn [unallocated set_allocation __ptr_dev get GPUImage_data dev_live emit].
        now rewrite Hdl.
      * eexists (_ :: fr ++ [ev]). split.
        -- cbn [trace emit app]. now rewrite Ht, <- List.app_assoc.
        -- apply (frees_only_null_app [_]); [now intros q' Hq'|].
           apply frees_only_null_app; [exact Hfr|]. now intros q' Hq'.
Qed.

Lemma upload_tail_fixed (b : GPUImage) (img : image_t) (w : World) :
  fst (upload_tail b img w) = b /\ fixed_store w (snd (upload_tail b img w)).
Proof.
  unfold upload_tail. destruct (compareShape b img).
  - unfold bind.
    pose proof (cudaMemcpy2D_fixed (get (__ptr_dev b)) (__pitch b) (data img)
                  (to_size_t (pitch img)) (row_bytes b) (to_size_t (__height b))
                  cudaMemcpyHostToDevice w) as Hf.
    destruct (cudaMemcpy2D _ _ _ _ _ _ _ w) as [e w1]. cbn [snd] in Hf.
    pose proof (checkError_fixed e w1) as Hf2.
    destruct (checkError e w1) as [[] w2]. cbn [fst snd ret] in *.
    split; [reflexivity|exact (fixed_store_trans _ _ _ Hf Hf2)].
  - unfold bind, cerr, modify, ret. cbn [fst snd].
    split; [reflexivity|now apply fixed_store_emit].
Qed.

Lemma upload_steps (this : GPUImage) (img : image_t) (w : World) :
  upload this img w =
  if unallocated this
  then upload_tail
         (fst (allocate (set_shape (height img) (width img) (depth img)
                           (itemSize img) this) w))
         img
         (snd (allocate (set_shape (height img) (width img) (depth img)
                           (itemSize img) this) w))
  else upload_tail this img w.
Proof.
  unfold upload, upload_tail, bind. destruct (unallocated this).
  - now destruct (allocate _ w).
  - reflexivity.
Qed.

Lemma owns_since_trans (w0 w1 w2 : World) (b0 b : GPUImage) :
  owns_since w0 b0 w1 -> unallocated b0 = true ->
  owns_since w1 b w2 -> owns_since w0 b w2.
Proof.
  intros (_ & Hl1 & fr1 & Ht1 & Hfr1) Hu (Hs & Hl2 & fr2 & Ht2 & Hfr2).
  rewrite Hu in Hl1.
  split; [exact Hs|]. split; [now rewrite Hl2, Hl1|].
  exists (fr2 ++ fr1). split; [now rewrite Ht2, Ht1, List.app_assoc|].
  now apply frees_only_null_app.
Qed.

Lemma apply_op_owns (w0 : World) (b : GPUImage) (o : BufferOp) (w : World) :
  owns_since w0 b w ->
  owns_since w0 (fst (apply_op b o w)) (snd (apply_op b o w)).
Proof.
  intros Hown. destruct o as [img|img].
  - cbn [apply_op]. rewrite upload_steps.
    destruct (unallocated b) eqn:Hu.
    + set (adopted := set_shape (height img) (width img) (depth img) (itemSize img) b).
      assert (Ha : owns_since w (fst (allocate adopted w)) (snd (allocate adopted w))).
      { apply allocate_owns. right.
        destruct Hown as ((i & Hc & Hb) & _). exists i. split; [exact Hc|].
        unfold unallocated in Hu. apply Z.eqb_eq in Hu.
        unfold GPUImage_data in Hb. now rewrite Hu in Hb. }
      destruct (allocate adopted w) as [b1 w1]. cbn [fst snd] in Ha |- *.
      destruct (upload_tail_fixed b1 img w1) as [E Hf].
      rewrite E. apply (owns_since_fixed w0 b1 w1); [|exact Hf].
      exact (owns_since_trans w0 w w1 b b1 Hown Hu Ha).
    + destruct (upload_tail_fixed b img w) as [E Hf].
      rewrite E. exact (owns_since_fixed w0 b w _ Hown Hf).
  - cbn [apply_op]. unfold bind.
    pose proof (download_fixed b img w) as Hf.
    destruct (download b img w) as [[] w1]. cbn [fst snd ret] in *.
    exact (owns_since_fixed w0 b w w1 Hown Hf).
Qed.

Lemma construct_owns (c : Construction) (w : World) :
  owns_since w (fst (construct c w)) (snd (construct c w)).
Proof.
  destruct c as [|raw h wd d s].
  - cbn [construct]. unfold GPUImage_ctor, bind, shared_ptr_make.
    cbn [shared_ptr_release shared_ptr_empty ctrl ret fst snd].
    split; [|split].
    + exists (length (blocks w)). split; [reflexivity|].
      cbn [blocks set_blocks GPUImage_data __ptr_dev get]. now rewrite list_lookup_middle.
    + reflexivity.
    + exists []. split; [reflexivity|]. now intros q Hq.
  - cbn [construct]. unfold GPUImage_ctor_shape. apply allocate_owns. now left.
Qed.

(** X17: a buffer never holds more than its own allocation and never loses
    one.  After a construction (empty or with a shape) and any sequence of
    uploads and downloads, with any host images and any allocation
    failures and retries on the way, the buffer is the sole owner of its
    control block, the allocator holds exactly one more pointer than before
    if the buffer is allocated (its device pointer) and none otherwise,
    and no non-null pointer was released. *)
Theorem buffer_owns_one_allocation (c : Construction) (ops : list BufferOp) (w : World) :
  let b := fst ((b0 <- construct c ;; run_ops b0 ops) w) in
  let w' := snd ((b0 <- construct c ;; run_ops b0 ops) w) in
  use_count (__ptr_dev b) w' = 1%nat
  /\ dev_live w' = (if unallocated b then dev_live w else GPUImage_data b :: dev_live w)
  /\ forall q, q <> 0 -> List.filter (is_free_of q) (new_events w w') = [].
Proof.
  intros b w'.
  assert (Hown : owns_since w b w').
  { subst b w'. unfold bind.
    pose proof (construct_owns c w) as H0.
    destruct (construct c w) as [b0 w0]. cbn [fst snd] in H0.
    revert b0 w0 H0. induction ops as [|o rest IH]; intros b0 w0 H0; [exact H0|].
    simpl. unfold bind.
    pose proof (apply_op_owns w b0 o w0 H0) as H1.
    destruct (apply_op b0 o w0) as [b1 w1]. cbn [fst snd] in H1.
    now apply IH. }
  destruct Hown as ((i & Hc & Hb) & Hl & fr & Ht & Hfr).
  split; [unfold use_count; now rewrite Hc, Hb|].
  split; [exact Hl|].
  intros q Hq. rewrite (new_events_app fr) by exact Ht. now apply Hfr.
Qed.

End OneAllocation.

(** * Concrete runs *)

(** C1 at a concrete input: a texture over the five-channel buffer, built
    in storage whose flag byte is set, comes out with the validity flag
    [true] and the handle 99 that no runtime call produced. *)
Lemma texture_over_4_channels_flag_unassigned_witness :
  let t := fst (@GPUTexture_ctor aligned_runtime true 99 (fst five_channel_alloc)
                  cudaChannelFormatKindUnsigned cudaAddressModeClamp
                  cudaFilterModePoint cudaReadModeElementType
                  (snd five_channel_alloc)) in
  4 < __depth (fst five_channel_alloc)
  /\ __validTexture t = true /\ getTextureObject t = 99.
Proof.
  split; [reflexivity|].
  destruct (@texture_over_4_channels_flag_unassigned aligned_runtime true 99
              (fst five_channel_alloc) cudaChannelFormatKindUnsigned
              cudaAddressModeClamp cudaFilterModePoint cudaReadModeElementType
              (snd five_channel_alloc) eq_refl) as (Hv & Ht & _).
  split; [exact Hv|exact Ht].
Defined.

(** C2, counterexample: the first upload into an empty buffer is of a valid
    host image that the device has no room for.  The shape is adopted, the
    allocation fails and the buffer stays unallocated.  The upload of an
    image of another shape that follows is not refused: it adopts the new
    shape, calls [cudaMallocPitch] again and copies. *)
Lemma first_upload_allocates_counterexample :
  let b0 := fst sample_empty in
  let w0 := snd sample_empty in
  let b1 := fst (@upload aligned_runtime b0 oversized_image w0) in
  let w1 := snd (@upload aligned_runtime b0 oversized_image w0) in
  let b2 := fst (@upload aligned_runtime b1 tight_image w1) in
  let w2 := snd (@upload aligned_runtime b1 tight_image w1) in
  unallocated b0 = true
  /\ valid_image oversized_image
  /\ (height tight_image, width tight_image, depth tight_image, itemSize tight_image)
     <> (height oversized_image, width oversized_image, depth oversized_image,
         itemSize oversized_image)
  /\ (__height b1, __width b1, __depth b1, __itemSize b1) = (32768, 32768, 4, 4)
  /\ unallocated b1 = true
  /\ new_events w1 w2 =
       [EvMemcpy2D 4294967296 512 4096 8 8 2 cudaMemcpyHostToDevice;
        EvFree 0; EvMallocPitch 8 2]
  /\ (__height b2, __width b2, __depth b2, __itemSize b2) = (2, 2, 4, 1)
  /\ unallocated b2 = false.
Proof.
  split; [reflexivity|].
  split; [unfold valid_image, INT_MAX; cbn; repeat split; lia|].
  split; [discriminate|].
  vm_compute. repeat split.
Qed.

(** C2, amended, at a concrete input: the tight image into an empty buffer
    on the aligned runtime, then the three-channel image. *)
Lemma first_upload_allocates_witness :
  let b0 := fst sample_empty in
  let w0 := snd sample_empty in
  let b1 := fst (@upload aligned_runtime b0 tight_image w0) in
  let w1 := snd (@upload aligned_runtime b0 tight_image w0) in
  (unallocated b0 = true /\ valid_image tight_image)
  /\ (__height b1, __width b1, __depth b1, __itemSize b1) = (2, 2, 4, 1)
  /\ GPUImage_data b1 = 4294967296 /\ __pitch b1 = 512
  /\ @upload aligned_runtime b1 rgb_image w1
     = (b1, emit (EvCerr "ERROR: GPUImage::upload(): shapes do not match") w1).
Proof.
  assert (Hv : valid_image tight_image)
    by (unfold valid_image, INT_MAX; cbn; repeat split; lia).
  split; [split; [reflexivity|exact Hv]|].
  destruct (@first_upload_allocates aligned_runtime (fst sample_empty) tight_image
              rgb_image (snd sample_empty) 4294967296 512
              eq_refl Hv eq_refl ltac:(lia) ltac:(discriminate))
    as (H1 & H2 & H3 & _ & _ & H6).
  repeat split; assumption.
Defined.

(** C3 at a concrete input: the ramp through the sample buffer, from a
    tight host image into a padded one. *)
Lemma upload_download_roundtrip_witness :
  let w1 := snd (@upload aligned_runtime sample_buffer tight_image sample_world) in
  let w2 := snd (download sample_buffer padded_image w1) in
  host_mem w2 (pixel_addr padded_image 0 0)
    = host_mem sample_world (pixel_addr tight_image 0 0)
  /\ host_mem w2 (pixel_addr padded_image 1 7)
    = host_mem sample_world (pixel_addr tight_image 1 7).
Proof.
  assert (Hv : valid_image tight_image)
    by (unfold valid_image, INT_MAX; cbn; repeat split; lia).
  assert (Hv' : valid_image padded_image)
    by (unfold valid_image, INT_MAX; cbn; repeat split; lia).
  assert (Hs : same_shape tight_image padded_image) by (repeat split).
  assert (Hq : row_bytes sample_buffer <= __pitch sample_buffer)
    by (vm_compute; discriminate).
  destruct (@upload_download_roundtrip aligned_runtime sample_buffer eq_refl Hq
              tight_image padded_image sample_world eq_refl Hv Hv' Hs) as (H1 & _).
  split; apply H1; cbn; lia.
Defined.

(** C4 at a concrete input: the three-channel image against the 2x2x4
    sample buffer. *)
Lemma shape_mismatch_no_copy_witness :
  @upload aligned_runtime sample_buffer rgb_image sample_world
    = (sample_buffer,
       emit (EvCerr "ERROR: GPUImage::upload(): shapes do not match") sample_world)
  /\ download sample_buffer rgb_image sample_world
    = (tt, emit (EvCerr "ERROR: GPUImage::download(): shapes do not match") sample_world).
Proof.
  apply (@shape_mismatch_no_copy aligned_runtime sample_buffer rgb_image sample_world).
  - reflexivity.
  - discriminate.
Defined.

(** C5 at a concrete input: a download from a default-constructed buffer. *)
Lemma download_unallocated_witness :
  download (fst sample_empty) tight_image (snd sample_empty)
  = (tt, emit (EvCerr "ERROR: GPUImage::download(): unallocated image") (snd sample_empty)).
Proof.
  apply (download_unallocated (fst sample_empty) tight_image
           (snd sample_empty)).
  reflexivity.
Defined.

(** C6, counterexample: for the positive shape (1, 65537, 65536, 1) the
    [int] product of the row size wraps to 65536; the construction succeeds
    and records a pitch of 65536 bytes, below the row size 65537*65536. *)
Lemma pitch_covers_row_bytes_counterexample :
  let b := fst (@GPUImage_ctor_shape aligned_runtime 0 1 65537 65536 1 empty_world) in
  shape_positive b /\ unallocated b = false
  /\ __pitch b < __width b * __depth b * __itemSize b.
Proof.
  vm_compute. repeat split.
Qed.

(** C6, amended, at a concrete input: an empty buffer, an upload and a
    download. *)
Lemma pitch_covers_row_bytes_witness :
  let b := fst ((b0 <- @construct aligned_runtime ConstructEmpty ;;
                 @run_ops aligned_runtime b0
                   [OpUpload tight_image; OpDownload padded_image]) empty_world) in
  unallocated b = false /\ __width b * __depth b * __itemSize b <= __pitch b.
Proof.
  split; [reflexivity|].
  apply (@pitch_covers_row_bytes aligned_runtime ConstructEmpty
           [OpUpload tight_image; OpDownload padded_image] empty_world).
  - reflexivity.
  - vm_compute. split; discriminate.
Defined.

(** C7, counterexample: the construction of a 16 GiB buffer on a device of
    1 GiB.  The allocation fails; the shape fields are (32768, 32768, 4, 4)
    and the device pointer is null: neither all zero, nor positive with an
    allocation. *)
Lemma buffer_state_invariant_counterexample :
  let b := fst (@GPUImage_ctor_shape aligned_runtime 0 32768 32768 4 4 empty_world) in
  (__height b, __width b, __depth b, __itemSize b) = (32768, 32768, 4, 4)
  /\ unallocated b = true
  /\ ~ all_or_nothing b.
Proof.
  split; [reflexivity|]. split; [reflexivity|].
  intros [[(Hh & _) _]|[_ Hu]].
  - vm_compute in Hh. discriminate Hh.
  - vm_compute in Hu. discriminate Hu.
Qed.

(** C7, amended, at a concrete input. *)
Lemma buffer_state_invariant_witness :
  let b := fst ((b0 <- @construct aligned_runtime ConstructEmpty ;;
                 @run_ops aligned_runtime b0
                   [OpUpload tight_image; OpDownload padded_image]) empty_world) in
  zero_or_positive b /\ (unallocated b = false -> shape_positive b).
Proof.
  destruct (@buffer_state_invariant aligned_runtime ConstructEmpty
              [OpUpload tight_image; OpDownload padded_image] empty_world)
    as (H1 & H2 & _).
  - exact I.
  - repeat constructor; cbn; lia.
  - split; [exact H1|exact H2].
Defined.

(** C8 at a concrete input: the sample buffer, sole owner of its
    allocation, copied and destroyed; the copy's destruction frees the
    allocation once. *)
Lemma shared_allocation_released_once_witness :
  let B := fst (GPUImage_copy sample_buffer sample_world) in
  let w1 := snd (GPUImage_copy sample_buffer sample_world) in
  let w2 := snd (GPUImage_dtor sample_buffer w1) in
  let w3 := snd (GPUImage_dtor B w2) in
  (B = sample_buffer /\ use_count (__ptr_dev B) w1 = 2%nat)
  /\ w2 = sample_world
  /\ new_events sample_world w3 = [EvFree 4294967296].
Proof.
  destruct (@shared_allocation_released_once aligned_runtime sample_buffer sample_world
              0%nat 0%nat eq_refl eq_refl eq_refl true 0
              cudaChannelFormatKindUnsigned cudaAddressModeClamp
              cudaFilterModePoint cudaReadModeElementType)
    as (H1 & H2 & H3 & _).
  split; [exact H1|]. split; [exact H2|].
  apply H3. reflexivity.
Defined.

(** C9, counterexample: for a one-channel buffer whose items are 2^28
    bytes, the descriptor handed to the runtime has a first channel of
    -2147483648 bits, not 8*itemSize = 2147483648. *)
Lemma channel_widths_counterexample :
  let img := fst huge_item_alloc in
  let w' := snd (@GPUTexture_ctor aligned_runtime false 0 img
                   cudaChannelFormatKindUnsigned cudaAddressModeClamp
                   cudaFilterModePoint cudaReadModeElementType
                   (snd huge_item_alloc)) in
  1 <= __depth img <= 4
  /\ List.filter is_create_texture (new_events (snd huge_item_alloc) w')
     = [EvCreateTextureObject (resource_desc img cudaChannelFormatKindUnsigned)
          (texture_desc cudaAddressModeClamp cudaFilterModePoint cudaReadModeElementType)]
  /\ channel_width (pitch2D_desc (resource_desc img cudaChannelFormatKindUnsigned)) 0
     = -2147483648
  /\ 8 * __itemSize img = 2147483648.
Proof.
  vm_compute. repeat split; discriminate.
Qed.

(** C9, amended, at a concrete input: a texture over the 2x2x4 sample
    buffer of one-byte items. *)
Lemma channel_widths_witness :
  let desc := pitch2D_desc (resource_desc sample_buffer cudaChannelFormatKindUnsigned) in
  channel_width desc 0 = 8 /\ channel_width desc 3 = 8 /\ channel_width desc 4 = 0.
Proof.
  destruct (@channel_widths aligned_runtime false 0 sample_buffer
              cudaChannelFormatKindUnsigned cudaAddressModeClamp
              cudaFilterModePoint cudaReadModeElementType sample_world)
    as (_ & H).
  - vm_compute. split; discriminate.
  - vm_compute. split; discriminate.
  - split; [exact (H 0)|]. split; [exact (H 3)|exact (H 4)].
Defined.

(** C10 at a concrete input: a host image of the buffer's shape whose pitch
    (1 byte) is below the row size (8 bytes) passes the validation, and the
    copy is issued with that pitch. *)
Lemma shape_validation_ignores_pitch_witness :
  pitch short_pitch_image
    < width short_pitch_image * depth short_pitch_image * itemSize short_pitch_image
  /\ compareShape sample_buffer short_pitch_image = true
  /\ List.filter is_memcpy
       (new_events sample_world
          (snd (@upload aligned_runtime sample_buffer short_pitch_image sample_world)))
     = [EvMemcpy2D 4294967296 512 4096 1 8 2 cudaMemcpyHostToDevice].
Proof.
  split; [reflexivity|].
  destruct (@shape_validation_ignores_pitch aligned_runtime sample_buffer
              short_pitch_image sample_world eq_refl eq_refl eq_refl eq_refl eq_refl)
    as (_ & H2 & H3 & _).
  split; [exact (H2 1 4096)|exact H3].
Defined.

(** X1 at a concrete input: a texture over the sample buffer is valid and
    carries the handle of the runtime. *)
Lemma texture_valid_iff_created_witness :
  let t := fst (@GPUTexture_ctor aligned_runtime false 0 sample_buffer
                  cudaChannelFormatKindUnsigned cudaAddressModeClamp
                  cudaFilterModePoint cudaReadModeElementType sample_world) in
  __image t = sample_buffer /\ __validTexture t = true
  /\ getTextureObject t = 4294967297.
Proof.
  destruct (@texture_valid_iff_created aligned_runtime false 0 sample_buffer
              cudaChannelFormatKindUnsigned cudaAddressModeClamp
              cudaFilterModePoint cudaReadModeElementType sample_world
              ltac:(vm_compute; discriminate)) as (Hi & H).
  assert (E : @cudaCreateTextureObject_rt aligned_runtime
                (resource_desc sample_buffer cudaChannelFormatKindUnsigned)
                (texture_desc cudaAddressModeClamp cudaFilterModePoint
                   cudaReadModeElementType)
              = TextureOk 4294967297) by reflexivity.
  rewrite E in H. destruct H as (H1 & H2 & _).
  split; [exact Hi|]. split; [exact H1|exact H2].
Defined.

(** X2 at a concrete input: the same texture, destroyed. *)
Lemma texture_destroyed_iff_created_witness :
  let t := fst (@GPUTexture_ctor aligned_runtime false 0 sample_buffer
                  cudaChannelFormatKindUnsigned cudaAddressModeClamp
                  cudaFilterModePoint cudaReadModeElementType sample_world) in
  let w1 := snd (@GPUTexture_ctor aligned_runtime false 0 sample_buffer
                   cudaChannelFormatKindUnsigned cudaAddressModeClamp
                   cudaFilterModePoint cudaReadModeElementType sample_world) in
  List.filter is_destroy_texture (new_events sample_world (snd (GPUTexture_dtor t w1)))
  = [EvDestroyTextureObject 4294967297].
Proof.
  destruct (@texture_destroyed_iff_created aligned_runtime false 0 sample_buffer
              cudaChannelFormatKindUnsigned cudaAddressModeClamp
              cudaFilterModePoint cudaReadModeElementType sample_world
              ltac:(vm_compute; discriminate)) as (_ & _ & H).
  assert (E : @cudaCreateTextureObject_rt aligned_runtime
                (resource_desc sample_buffer cudaChannelFormatKindUnsigned)
                (texture_desc cudaAddressModeClamp cudaFilterModePoint
                   cudaReadModeElementType)
              = TextureOk 4294967297) by reflexivity.
  rewrite E in H. exact H.
Defined.

(** X5 at a concrete input: the request for a texture over the sample
    buffer. *)
Lemma texture_request_binds_buffer_witness :
  List.filter is_create_texture
    (new_events sample_world
       (snd (@GPUTexture_ctor aligned_runtime false 0 sample_buffer
               cudaChannelFormatKindUnsigned cudaAddressModeWrap
               cudaFilterModeLinear cudaReadModeNormalizedFloat sample_world)))
  = [EvCreateTextureObject
       {| resType := cudaResourceTypePitch2D;
          pitch2D_desc := cudaCreateChannelDesc 8 8 8 8 cudaChannelFormatKindUnsigned;
          pitch2D_devPtr := 4294967296;
          pitch2D_pitchInBytes := 512;
          pitch2D_width := 2;
          pitch2D_height := 2 |}
       {| addressMode0 := cudaAddressModeWrap; addressMode1 := cudaAddressModeWrap;
          filterMode := cudaFilterModeLinear; readMode := cudaReadModeNormalizedFloat;
          normalizedCoords := false |}].
Proof.
  exact (@texture_request_binds_buffer aligned_runtime false 0 sample_buffer
           cudaChannelFormatKindUnsigned cudaAddressModeWrap
           cudaFilterModeLinear cudaReadModeNormalizedFloat sample_world
           ltac:(vm_compute; discriminate)
           ltac:(vm_compute; split; discriminate)
           ltac:(vm_compute; split; discriminate)
           ltac:(vm_compute; split; discriminate)).
Defined.

(** X6 at a concrete input: a texture over a default-constructed buffer. *)
Lemma texture_over_channelless_buffer_witness :
  exists res,
    List.filter is_create_texture
      (new_events (snd sample_empty)
         (snd (@GPUTexture_ctor aligned_runtime false 0 (fst sample_empty)
                 cudaChannelFormatKindUnsigned cudaAddressModeClamp
                 cudaFilterModePoint cudaReadModeElementType (snd sample_empty))))
    = [EvCreateTextureObject res
         (texture_desc cudaAddressModeClamp cudaFilterModePoint cudaReadModeElementType)]
    /\ pitch2D_devPtr res = 0
    /\ pitch2D_desc res = cudaCreateChannelDesc 0 0 0 0 cudaChannelFormatKindUnsigned.
Proof.
  destruct (@texture_over_channelless_buffer aligned_runtime false 0 (fst sample_empty)
              cudaChannelFormatKindUnsigned cudaAddressModeClamp
              cudaFilterModePoint cudaReadModeElementType (snd sample_empty)
              ltac:(vm_compute; discriminate)) as (res & H1 & H2 & H3).
  exists res. split; [exact H1|]. split; [exact H2|exact H3].
Defined.

(** X8 at a concrete input: three operations on the sample buffer, one of
    them with an image of another shape. *)
Lemma allocated_buffer_is_fixed_witness :
  let ops := [OpUpload tight_image; OpUpload rgb_image; OpDownload padded_image] in
  fst (@run_ops aligned_runtime sample_buffer ops sample_world) = sample_buffer
  /\ dev_live (snd (@run_ops aligned_runtime sample_buffer ops sample_world))
     = dev_live sample_world
  /\ List.filter is_malloc_or_free
       (new_events sample_world
          (snd (@run_ops aligned_runtime sample_buffer ops sample_world))) = [].
Proof.
  destruct (@allocated_buffer_is_fixed aligned_runtime sample_buffer
              [OpUpload tight_image; OpUpload rgb_image; OpDownload padded_image]
              sample_world eq_refl) as (H1 & H2 & _ & H4).
  split; [exact H1|]. split; [exact H2|exact H4].
Defined.

(** X9 at a concrete input: the first padding byte of row 0 of the sample
    buffer, and the first byte behind its allocation. *)
Lemma upload_stays_in_allocation_witness :
  let w1 := snd (@upload aligned_runtime sample_buffer tight_image sample_world) in
  dev_mem w1 4294967304 = dev_mem sample_world 4294967304
  /\ dev_mem w1 4294968320 = dev_mem sample_world 4294968320.
Proof.
  assert (Hv : valid_image tight_image)
    by (unfold valid_image, INT_MAX; cbn; repeat split; lia).
  destruct (@upload_stays_in_allocation aligned_runtime sample_buffer eq_refl
              ltac:(vm_compute; discriminate) tight_image sample_world eq_refl Hv)
    as (H1 & H2).
  split.
  - apply H1. intros r c Hr Hc.
    change (GPUImage_data sample_buffer) with 4294967296.
    change (__pitch sample_buffer) with 512.
    cbn in Hr, Hc. lia.
  - apply H2. unfold in_allocation.
    change (GPUImage_data sample_buffer) with 4294967296.
    change (__pitch sample_buffer) with 512.
    change (__height sample_buffer) with 2. lia.
Defined.

(** X10 at a concrete input: the tight image, then the padded one. *)
Lemma later_upload_wins_witness :
  let w1 := snd (@upload aligned_runtime sample_buffer tight_image sample_world) in
  let w2 := snd (@upload aligned_runtime sample_buffer padded_image w1) in
  dev_mem w2 (GPUImage_data sample_buffer + 1 * __pitch sample_buffer + 7)
  = host_mem sample_world (pixel_addr padded_image 1 7).
Proof.
  assert (Hv : valid_image tight_image)
    by (unfold valid_image, INT_MAX; cbn; repeat split; lia).
  assert (Hv' : valid_image padded_image)
    by (unfold valid_image, INT_MAX; cbn; repeat split; lia).
  apply (@later_upload_wins aligned_runtime sample_buffer eq_refl
           ltac:(vm_compute; discriminate) tight_image padded_image sample_world
           eq_refl Hv eq_refl Hv'); cbn; lia.
Defined.

(** X11 at a concrete input: the oversized image into an empty buffer. *)
Lemma upload_copies_after_failed_allocation_witness :
  let b := fst (@upload aligned_runtime (fst sample_empty) oversized_image
                  (snd sample_empty)) in
  let w' := snd (@upload aligned_runtime (fst sample_empty) oversized_image
                   (snd sample_empty)) in
  unallocated b = true
  /\ List.filter is_memcpy (new_events (snd sample_empty) w')
     = [EvMemcpy2D 0 0 4096 524288 524288 32768 cudaMemcpyHostToDevice].
Proof.
  destruct (@upload_copies_after_failed_allocation aligned_runtime (fst sample_empty)
              oversized_image (snd sample_empty) cudaErrorMemoryAllocation
              eq_refl eq_refl) as (_ & H2 & _ & _ & H5).
  split; [exact H2|exact H5].
Defined.

(** X12 at a concrete input: the sample buffer from construction to
    destruction, with an upload and a download in between. *)
Lemma allocation_life_cycle_witness :
  let b := fst (@GPUImage_ctor_shape aligned_runtime 0 2 2 4 1 empty_world) in
  let w1 := snd (@GPUImage_ctor_shape aligned_runtime 0 2 2 4 1 empty_world) in
  let w2 := snd (@run_ops aligned_runtime b
                   [OpUpload tight_image; OpDownload padded_image] w1) in
  let w3 := snd (GPUImage_dtor b w2) in
  List.filter is_malloc_or_free (new_events empty_world w3)
    = [EvFree 4294967296; EvMallocPitch 8 2]
  /\ dev_live w3 = [].
Proof.
  destruct (@allocation_life_cycle aligned_runtime 0 2 2 4 1
              [OpUpload tight_image; OpDownload padded_image] empty_world
              4294967296 512 eq_refl ltac:(discriminate) eq_refl)
    as (_ & _ & _ & _ & H5 & H6 & _).
  split; [exact H5|exact H6].
Defined.

(** X13 at a concrete input: a 16 GiB buffer on the 1 GiB device. *)
Lemma failed_construction_witness :
  let b := fst (@GPUImage_ctor_shape aligned_runtime 77 32768 32768 4 4 empty_world) in
  let w1 := snd (@GPUImage_ctor_shape aligned_runtime 77 32768 32768 4 4 empty_world) in
  GPUImage_data b = 0 /\ __pitch b = 77
  /\ new_events empty_world w1
     = [EvCerr "ERROR: GPUImage device memory allocation: out of memory";
        EvMallocPitch 524288 32768]
  /\ new_events w1 (snd (GPUImage_dtor b w1)) = [EvFree 0].
Proof.
  destruct (@failed_construction aligned_runtime 77 32768 32768 4 4 empty_world
              cudaErrorMemoryAllocation eq_refl ltac:(discriminate))
    as (_ & H2 & H3 & H4 & H5 & _).
  split; [exact H2|]. split; [exact H3|]. split; [exact H4|exact H5].
Defined.

(** X14 at a concrete input: the buffer of the sample texture, which shares
    its allocation with the sample buffer. *)
Lemma getImage_shares_allocation_witness :
  let t := fst sample_texture_alloc in
  let w := snd sample_texture_alloc in
  let B := fst (getImage t w) in
  let w1 := snd (getImage t w) in
  let w2 := snd (GPUTexture_dtor t w1) in
  B = sample_buffer
  /\ use_count (__ptr_dev B) w1 = 3%nat
  /\ use_count (__ptr_dev B) w2 = 2%nat
  /\ dev_live w2 = [4294967296].
Proof.
  destruct (getImage_shares_allocation (fst sample_texture_alloc)
              (snd sample_texture_alloc) 0%nat 1%nat eq_refl eq_refl)
    as (H1 & _ & H3 & H4 & _ & H6 & _).
  split; [exact H1|]. split; [exact H3|]. split; [exact H4|exact H6].
Defined.

(** X15 at a concrete input: a 480x640 matrix of three one-byte
    channels. *)
Lemma wrapCVMat_tight_witness :
  let img := wrapCVMat sample_mat tight_image in
  valid_image img /\ pitch img = 1920
  /\ (height img, width img, depth img, itemSize img) = (480, 640, 3, 1).
Proof.
  destruct (wrapCVMat_tight sample_mat tight_image
              ltac:(vm_compute; split; [reflexivity|discriminate]) ltac:(reflexivity)
              ltac:(reflexivity) ltac:(reflexivity)
              ltac:(vm_compute; discriminate) ltac:(discriminate))
    as (H1 & H2 & H3 & _).
  split; [exact H1|]. split; [exact H2|exact H3].
Defined.

(** X16 at a concrete input: two downloads from the sample buffer into the
    padded image. *)
Lemma download_reads_device_witness :
  let w1 := snd (download sample_buffer padded_image sample_world) in
  let w2 := snd (download sample_buffer padded_image w1) in
  host_mem w1 (pixel_addr padded_image 1 7)
    = dev_mem sample_world (GPUImage_data sample_buffer + 1 * __pitch sample_buffer + 7)
  /\ host_mem w2 8192 = host_mem w1 8192.
Proof.
  assert (Hv : valid_image padded_image)
    by (unfold valid_image, INT_MAX; cbn; repeat split; lia).
  destruct (download_reads_device sample_buffer eq_refl
              ltac:(vm_compute; discriminate) padded_image sample_world eq_refl Hv)
    as (H1 & _ & H3).
  split; [apply H1; cbn; lia|apply H3].
Defined.
